(** * Training-loop utilities of [schedule.py]: a shallow embedding

    The module wraps a learning-rate schedule ([NoamOpt]), label smoothing
    ([LabelSmoothing]), batch masking ([Batch], [subsequent_mask]), a
    synthetic batch generator ([data_gen]) and two loss-compute wrappers
    ([SimpleLossCompute], [SimpleTT2LossCompute]).

    Conventions of the embedding:
    - a Python exception is a value [Raise e] of the [result] monad;
    - Python [int]s are [Z];
    - the schedule needs a real power and is modelled over the real
      numbers: rounding is not followed there;
    - elsewhere a Python [float] is an element of a [Scalar] structure,
      with two instances: the real numbers (exact arithmetic) and IEEE
      binary64 ([PrimFloat], the arithmetic Python runs);
    - tensors are nested lists together with their shape, so that a
      dimension of an empty tensor is still known, as in torch;
    - calls into the autograd engine and the optimizer are state
      transformers over a training state supplied by the caller;
    - the hyperparameters of the missing module [hyperparams] are
      parameters. *)

From Stdlib Require Import Reals Lra ZArith.
From Stdlib Require Import PrimFloat FloatOps SpecFloat.
From stdpp Require Import base option list strings gmap.

(** ** Exceptions *)

Inductive exn : Set :=
| AssertionError
| ZeroDivisionError
| IndexError
| RuntimeError
| ValueError
| TypeError
| KeyError.

Inductive result (A : Type) : Type :=
| Ok (a : A)
| Raise (e : exn).
Arguments Ok {A} a.
Arguments Raise {A} e.

#[global] Instance result_ret : MRet result := fun _ a => Ok a.
#[global] Instance result_bind : MBind result := fun _ _ f m =>
  match m with
  | Ok a => f a
  | Raise e => Raise e
  end.

#[global] Instance result_fmap : FMap result := fun _ _ f m =>
  match m with
  | Ok a => Ok (f a)
  | Raise e => Raise e
  end.

(** ** The learning-rate schedule ([class NoamOpt]) *)

Module Noam.
Local Open Scope R_scope.

(** A number met while evaluating [rate]: a float, idealised as a real, or
    a complex number (what Python 3 returns for a negative base raised to a
    fractional power), whose value is not followed any further. *)
Inductive pynum : Type :=
| PyFloat (r : R)
| PyComplex.

(** [x ** y] for a fractional negative exponent [y] (the source uses
    [-0.5] and [-1.5]): a positive base gives the real power, base zero
    raises [ZeroDivisionError], a negative base gives a complex number. *)
Definition pow_frac (x y : R) : result pynum :=
  if Rlt_dec 0 x then Ok (PyFloat (Rpower x y))
  else if Req_dec_T x 0 then Raise ZeroDivisionError
  else Ok PyComplex.

(** [a * b]; a complex factor makes the product complex. *)
Definition py_mul (a b : pynum) : pynum :=
  match a, b with
  | PyFloat x, PyFloat y => PyFloat (x * y)
  | _, _ => PyComplex
  end.

(** The builtin [min(a, b)]: [b] when [b < a], else [a]; ordering a
    complex number raises [TypeError]. *)
Definition py_min (a b : pynum) : result pynum :=
  match a, b with
  | PyFloat x, PyFloat y => Ok (PyFloat (if Rlt_dec y x then y else x))
  | _, _ => Raise TypeError
  end.

(** The wrapped torch optimizer: its parameter groups (dictionaries with a
    learning-rate entry ['lr']) and the number of updates it performed. *)
Record Optimizer : Type := mkOptimizer {
  param_groups : list (gmap string pynum);
  updates : nat
}.

Definition optimizer_step (o : Optimizer) : Optimizer :=
  {| param_groups := param_groups o; updates := S (updates o) |}.

Record NoamOpt : Type := mkNoamOpt {
  optimizer : Optimizer;
  _step : Z;
  warmup : R;
  factor : R;
  model_size : R;
  _rate : pynum
}.

(** [NoamOpt.__init__] *)
Definition init (model_size factor warmup : R) (optimizer : Optimizer) : NoamOpt :=
  {| optimizer := optimizer; _step := 0; warmup := warmup; factor := factor;
     model_size := model_size; _rate := PyFloat 0 |}.

(** [get_std_opt], for a model of width [d_model] and its Adam optimizer. *)
Definition get_std_opt (d_model : R) (adam : Optimizer) : NoamOpt :=
  init d_model 2 4000 adam.

(** [NoamOpt.rate]: [step = None] stands for the omitted argument. *)
Definition rate (self : NoamOpt) (step : option R) : result pynum :=
  let step := match step with
              | None => IZR (_step self)
              | Some s => s
              end in
  m ← pow_frac (model_size self) (-0.5);
  a ← pow_frac step (-0.5);
  w ← pow_frac (warmup self) (-1.5);
  lo ← py_min a (py_mul (PyFloat step) w);
  mret (py_mul (PyFloat (factor self)) (py_mul m lo)).

(** [NoamOpt.step]: the object after the call, and the exception the call
    ends with, if any. The counter is advanced before [rate] is evaluated,
    so it stays advanced when [rate] raises. *)
Definition step (self : NoamOpt) : NoamOpt * option exn :=
  let self1 := {| optimizer := optimizer self; _step := (_step self + 1)%Z;
                  warmup := warmup self; factor := factor self;
                  model_size := model_size self; _rate := _rate self |} in
  match rate self1 None with
  | Raise e => (self1, Some e)
  | Ok r =>
      let groups := (fun p : gmap string pynum => <["lr" := r]> p) <$>
                      param_groups (optimizer self1) in
      ({| optimizer := optimizer_step {| param_groups := groups;
                                         updates := updates (optimizer self1) |};
          _step := _step self1; warmup := warmup self1; factor := factor self1;
          model_size := model_size self1; _rate := r |}, None)
  end.

(** [n] calls of [step] in a row, stopping at the first that raises. *)
Fixpoint steps (n : nat) (self : NoamOpt) : NoamOpt * option exn :=
  match n with
  | 0 => (self, None)
  | S n' =>
      match step self with
      | (self', None) => steps n' self'
      | (self', Some e) => (self', Some e)
      end
  end.

(** The learning rate of the schedule at a positive counter [k]. *)
Definition lrate (self : NoamOpt) (k : Z) : R :=
  factor self *
  (Rpower (model_size self) (-0.5) *
   Rmin (Rpower (IZR k) (-0.5)) (IZR k * Rpower (warmup self) (-1.5))).

(** The top of the warmup curve. *)
Definition peak_rate (self : NoamOpt) : R :=
  factor self * (Rpower (model_size self) (-0.5) * Rpower (warmup self) (-0.5)).

(** The value of the schedule at an integer step, where it is a float. *)
Definition rate_is (self : NoamOpt) (s : Z) (v : R) : Prop :=
  rate self (Some (IZR s)) = Ok (PyFloat v).

(** The schedule does not go down from step [s1] to step [s2]. *)
Definition rate_le (self : NoamOpt) (s1 s2 : Z) : Prop :=
  exists r1 r2, rate_is self s1 r1 /\ rate_is self s2 r2 /\ r1 <= r2.

(** The schedule goes strictly down from step [s1] to step [s2]. *)
Definition rate_gt (self : NoamOpt) (s1 s2 : Z) : Prop :=
  exists r1 r2, rate_is self s1 r1 /\ rate_is self s2 r2 /\ r2 < r1.

(** The warmup curve: non-decreasing on the integer steps from 1 to
    [warmup], strictly decreasing on the integer steps beyond [warmup]. *)
Definition rises_then_decays (self : NoamOpt) : Prop :=
  (forall s1 s2 : Z,
      (1 <= s1)%Z -> (s1 <= s2)%Z -> IZR s2 <= warmup self -> rate_le self s1 s2) /\
  (forall s1 s2 : Z,
      warmup self < IZR s1 -> (s1 < s2)%Z -> rate_gt self s1 s2).

(** A schedule with factor zero: model size 1, warmup 1. *)
Definition flat_opt : NoamOpt :=
  init 1 0 1 {| param_groups := []; updates := 0 |}.

End Noam.

(** ** The scheduler-driven wrapper ([class CustomAdam]) *)

Module Adam.
Section WithScheduler.

(** The scheduler handed to the wrapper, with state [S], and the losses
    [L] it is fed: [sched_step loss s o] is [scheduler.step(loss)], which
    may rewrite the parameter groups of the optimizer [o] it was built on. *)
Context {S L : Type}.
Context (sched_step : option L -> S -> Noam.Optimizer -> S * Noam.Optimizer).

Record CustomAdam : Type := mkCustomAdam {
  optimizer : Noam.Optimizer;
  scheduler : option S;
  _step : Z;
  _rate : Noam.pynum
}.

(** [CustomAdam.__init__] *)
Definition init (optimizer : Noam.Optimizer) (scheduler : option S) : CustomAdam :=
  {| optimizer := optimizer; scheduler := scheduler; _step := 0;
     _rate := Noam.PyFloat 0 |}.

(** [for p in self.optimizer.param_groups: self._rate = p['lr']]: the
    value left in [_rate], and [KeyError] at the first group without an
    ['lr'] entry. *)
Fixpoint read_rates (groups : list (gmap string Noam.pynum)) (rate : Noam.pynum)
    : Noam.pynum * option exn :=
  match groups with
  | [] => (rate, None)
  | p :: groups' =>
      match p !! "lr" with
      | Some r => read_rates groups' r
      | None => (rate, Some KeyError)
      end
  end.

(** The learning rate of the last parameter group, if there is a group. *)
Definition last_lr (groups : list (gmap string Noam.pynum)) : option Noam.pynum :=
  last groups ≫= fun p : gmap string Noam.pynum => p !! "lr".

(** [CustomAdam.step]: the object after the call, and the exception the
    call ends with, if any. *)
Definition step (self : CustomAdam) (loss : option L) : CustomAdam * option exn :=
  let step1 := (_step self + 1)%Z in
  match read_rates (Noam.param_groups (optimizer self)) (_rate self) with
  | (r, Some e) =>
      ({| optimizer := optimizer self; scheduler := scheduler self;
          _step := step1; _rate := r |}, Some e)
  | (r, None) =>
      let o := Noam.optimizer_step (optimizer self) in
      match scheduler self with
      | None =>
          ({| optimizer := o; scheduler := None; _step := step1; _rate := r |}, None)
      | Some sch =>
          let (sch', o') := sched_step loss sch o in
          ({| optimizer := o'; scheduler := Some sch'; _step := step1; _rate := r |},
           None)
      end
  end.

End WithScheduler.
Arguments CustomAdam S : clear implicits.
End Adam.

(** ** Floating-point arithmetic *)

(** The operations the module applies to floats. *)
Class Scalar (F : Type) : Type := {
  fzero : F;
  fone : F;
  fadd : F -> F -> F;
  fsub : F -> F -> F;
  fmul : F -> F -> F;
  fdiv : F -> F -> F;
  of_int : Z -> F;
  feqb : F -> F -> bool
}.

(** Exact arithmetic: floats idealised as real numbers. *)
#[global] Instance real_scalar : Scalar R := {|
  fzero := 0%R;
  fone := 1%R;
  fadd := Rplus;
  fsub := Rminus;
  fmul := Rmult;
  fdiv := Rdiv;
  of_int := IZR;
  feqb := fun a b => if Req_dec_T a b then true else false
|}.

(** IEEE 754 binary64, the format of a Python [float]. *)
#[global] Instance binary64_scalar : Scalar float := {|
  fzero := PrimFloat.zero;
  fone := PrimFloat.one;
  fadd := PrimFloat.add;
  fsub := PrimFloat.sub;
  fmul := PrimFloat.mul;
  fdiv := PrimFloat.div;
  of_int := fun z => SF2Prim (binary_normalize prec emax z 0 false);
  feqb := PrimFloat.eqb
|}.

(** Python's [a / b] for a float [a] and an int [b]. *)
Definition py_div_int {F} `{Scalar F} (a : F) (b : Z) : result F :=
  if bool_decide (b = 0%Z) then Raise ZeroDivisionError
  else Ok (fdiv a (of_int b)).

(** The sum of a list of floats, from the left. *)
Definition fsum {F} `{Scalar F} (l : list F) : F := foldl fadd fzero l.

(** ** Tensors *)

(** A two-dimensional tensor: its shape and its rows. *)
Record Tensor2 (A : Type) : Type := mkT2 {
  t2_size0 : nat;
  t2_size1 : nat;
  t2_data : list (list A)
}.
Arguments mkT2 {A} _ _ _.
Arguments t2_size0 {A} _.
Arguments t2_size1 {A} _.
Arguments t2_data {A} _.

(** A three-dimensional tensor: its shape and its matrices. *)
Record Tensor3 (A : Type) : Type := mkT3 {
  t3_size0 : nat;
  t3_size1 : nat;
  t3_size2 : nat;
  t3_data : list (list (list A))
}.
Arguments mkT3 {A} _ _ _ _.
Arguments t3_size0 {A} _.
Arguments t3_size1 {A} _.
Arguments t3_size2 {A} _.
Arguments t3_data {A} _.

(** The data agree with the shape. *)
Definition wf_rows {A} (n m : nat) (rows : list (list A)) : Prop :=
  length rows = n /\ Forall (fun r => length r = m) rows.

Definition wf2 {A} (t : Tensor2 A) : Prop :=
  wf_rows (t2_size0 t) (t2_size1 t) (t2_data t).

Definition wf3 {A} (t : Tensor3 A) : Prop :=
  length (t3_data t) = t3_size0 t /\
  Forall (wf_rows (t3_size1 t) (t3_size2 t)) (t3_data t).

(** Entry [(i, j)] of a matrix, entry [(b, i, j)] of a 3-d tensor. *)
Definition get_rows {A} (rows : list (list A)) (i j : nat) : option A :=
  rows !! i ≫= fun r => r !! j.

Definition get2 {A} (t : Tensor2 A) (i j : nat) : option A :=
  get_rows (t2_data t) i j.

Definition get3 {A} (t : Tensor3 A) (b i j : nat) : option A :=
  t3_data t !! b ≫= fun m => get_rows m i j.

(** The same shape, with the data transformed. *)
Definition map_data2 {A B} (f : list (list A) -> list (list B))
    (t : Tensor2 A) : Tensor2 B :=
  mkT2 (t2_size0 t) (t2_size1 t) (f (t2_data t)).

(** A Python index into a dimension of size [n]: negative indices count
    from the end, anything outside [-n, n) raises [IndexError]. *)
Definition py_index (n : nat) (k : Z) : result nat :=
  if bool_decide (0 <= k < Z.of_nat n)%Z then Ok (Z.to_nat k)
  else if bool_decide (- Z.of_nat n <= k < 0)%Z then Ok (Z.to_nat (k + Z.of_nat n))
  else Raise IndexError.

(** [t[:, k] = v] *)
Definition set_column {A} (k : Z) (v : A) (t : Tensor2 A) : result (Tensor2 A) :=
  j ← py_index (t2_size1 t) k;
  mret (map_data2 (fun rows : list (list A) =>
                     (fun r : list A => <[j := v]> r) <$> rows) t).

(** The hyperparameters the module reads from [hyperparams]. *)
Record hyperparams (F : Type) : Type := mkHyperparams {
  pad_token : Z;
  positive_stop_weight : F;
  loss_w_stop : F
}.
Arguments mkHyperparams {F} _ _ _.
Arguments pad_token {F} _.
Arguments positive_stop_weight {F} _.
Arguments loss_w_stop {F} _.

(** ** Label smoothing ([class LabelSmoothing]) *)

Module Smoothing.
Section WithScalar.
Context {F : Type} `{Scalar F}.

Record LabelSmoothing : Type := mkLabelSmoothing {
  criterion : Tensor2 F -> Tensor2 F -> F;
  padding_idx : Z;
  confidence : F;
  smoothing : F;
  size : Z;
  true_dist : option (Tensor2 F)
}.

(** [LabelSmoothing.__init__]; [KLDivLoss_sum] is torch's
    [nn.KLDivLoss(reduction='sum')]. *)
Definition init (KLDivLoss_sum : Tensor2 F -> Tensor2 F -> F)
    (size padding_idx : Z) (smoothing : F) : LabelSmoothing :=
  {| criterion := KLDivLoss_sum; padding_idx := padding_idx;
     confidence := fsub fone smoothing; smoothing := smoothing;
     size := size; true_dist := None |}.

(** [t.fill_(v)] *)
Definition fill_ (v : F) (t : Tensor2 F) : Tensor2 F :=
  map_data2 (fun rows : list (list F) =>
               (fun r : list F => (fun _ => v) <$> r) <$> rows) t.

(** [t.scatter_(1, index.unsqueeze(1), v)] on the rows of [t]: row [i]
    gets [v] at column [index[i]]. torch raises [RuntimeError] when the
    index has more rows than [t] or holds a column outside [0, size1). *)
Fixpoint scatter_rows (rows : list (list F)) (index : list Z) (v : F)
    {struct index} : result (list (list F)) :=
  match index with
  | [] => Ok rows
  | k :: index' =>
      match rows with
      | [] => Raise RuntimeError
      | r :: rows' =>
          if bool_decide (0 <= k < Z.of_nat (length r))%Z then
            rest ← scatter_rows rows' index' v;
            mret (<[Z.to_nat k := v]> r :: rest)
          else Raise RuntimeError
      end
  end.

Definition scatter_ (index : list Z) (v : F) (t : Tensor2 F) : result (Tensor2 F) :=
  rows ← scatter_rows (t2_data t) index v;
  mret (mkT2 (t2_size0 t) (t2_size1 t) rows).

(** [torch.nonzero(bs)]: the positions holding [True], in order. *)
Fixpoint nonzero_from (i : nat) (bs : list bool) : list nat :=
  match bs with
  | [] => []
  | b :: bs' => (if b then [i] else []) ++ nonzero_from (S i) bs'
  end.

Definition nonzero (bs : list bool) : list nat := nonzero_from 0 bs.

(** [t.index_fill_(0, index, v)]: the rows listed in [index] are filled
    with [v]; a row number outside the tensor raises [IndexError]. *)
Definition index_fill_ (index : list nat) (v : F) (t : Tensor2 F)
    : result (Tensor2 F) :=
  if bool_decide (Forall (fun i => i < t2_size0 t) index) then
    Ok (map_data2 (imap (fun (i : nat) (r : list F) =>
                           if bool_decide (i ∈ index) then (fun _ => v) <$> r
                           else r)) t)
  else Raise IndexError.

(** [LabelSmoothing.forward]. The target is a one-dimensional tensor of
    class indices. The result carries the updated object, whose
    [true_dist] is the smoothed distribution, and the loss. The test
    [mask.dim() > 0] always holds: [torch.nonzero] returns a matrix. *)
Definition forward (self : LabelSmoothing) (x : Tensor2 F) (target : list Z)
    : result (LabelSmoothing * F) :=
  if bool_decide (Z.of_nat (t2_size1 x) = size self) then
    v ← py_div_int (smoothing self) (size self - 2);
    let td := fill_ v x in
    td ← scatter_ target (confidence self) td;
    td ← set_column (padding_idx self) fzero td;
    let mask := nonzero ((fun t => bool_decide (t = padding_idx self)) <$> target) in
    td ← index_fill_ mask fzero td;
    mret ({| criterion := criterion self; padding_idx := padding_idx self;
             confidence := confidence self; smoothing := smoothing self;
             size := size self; true_dist := Some td |},
          criterion self x td)
  else Raise AssertionError.

(** The smoothed distribution built by a call of [forward]. *)
Definition smoothed (self : LabelSmoothing) (x : Tensor2 F) (target : list Z)
    : result (Tensor2 F) :=
  r ← forward self x target;
  match true_dist (fst r) with
  | Some td => Ok td
  | None => Raise RuntimeError
  end.

(** The entry the smoothed distribution is to hold in the row of a target
    [t], at column [j]: zero in a padding row and in the padding column,
    the confidence at the target class, the uniform share elsewhere. *)
Definition smoothed_entry (self : LabelSmoothing) (t : Z) (j : nat) : F :=
  if bool_decide (t = padding_idx self) then fzero
  else if bool_decide (Z.of_nat j = padding_idx self) then fzero
  else if bool_decide (Z.of_nat j = t) then confidence self
  else fdiv (smoothing self) (of_int (size self - 2)).

(** The column that the Python index [k] names among [n] columns. *)
Definition wrap_index (n : nat) (k : Z) : nat :=
  Z.to_nat (if bool_decide (k < 0)%Z then k + Z.of_nat n else k).

(** The row the smoothed distribution is to hold, over [m] classes, for a
    row whose target is [ot] ([None] for a row beyond the targets): the
    uniform share everywhere, the confidence scattered at the target, the
    padding column zeroed; all zeros for a padding target. *)
Definition smoothed_row (self : LabelSmoothing) (m : nat) (ot : option Z) : list F :=
  let v := fdiv (smoothing self) (of_int (size self - 2)) in
  let scattered :=
    match ot with
    | Some t => <[Z.to_nat t := confidence self]> (replicate m v)
    | None => replicate m v
    end in
  if bool_decide (ot = Some (padding_idx self)) then replicate m fzero
  else <[wrap_index m (padding_idx self) := fzero]> scattered.

(** The conditions under which [forward] builds its distribution. *)
Definition forward_defined (self : LabelSmoothing) (x : Tensor2 F) (target : list Z)
    : Prop :=
  Z.of_nat (t2_size1 x) = size self /\
  size self <> 2%Z /\
  length target <= t2_size0 x /\
  Forall (fun t => (0 <= t < size self)%Z) target /\
  (- size self <= padding_idx self < size self)%Z.

End WithScalar.
Arguments LabelSmoothing F : clear implicits.
End Smoothing.

(** ** Masks and batches ([subsequent_mask], [class Batch], [data_gen]) *)

Module Masking.

(** [np.ones((n, n))], with the entries already cast to [uint8]. *)
Definition np_ones (n : nat) : list (list Z) := replicate n (replicate n 1%Z).

(** [np.triu(m, k)]: the entries below the [k]-th diagonal are zeroed. *)
Definition np_triu (k : Z) (m : list (list Z)) : list (list Z) :=
  imap (fun (i : nat) (row : list Z) =>
          imap (fun (j : nat) (v : Z) =>
                  if bool_decide (Z.of_nat i + k <= Z.of_nat j)%Z then v else 0%Z)
               row) m.

(** [subsequent_mask]; numpy refuses a negative dimension. *)
Definition subsequent_mask (size : Z) : result (Tensor3 bool) :=
  if bool_decide (size < 0)%Z then Raise ValueError
  else
    let n := Z.to_nat size in
    let mask := np_triu 1 <$> [np_ones n] in
    Ok (mkT3 1 n n
          ((fun m : list (list Z) =>
              (fun row : list Z => (fun v : Z => bool_decide (v = 0%Z)) <$> row) <$> m)
             <$> mask)).

(** The size of a dimension of [a & b] under broadcasting. *)
Definition broadcast_dim (n m : nat) : result nat :=
  if bool_decide (n = m) then Ok n
  else if bool_decide (n = 1) then Ok m
  else if bool_decide (m = 1) then Ok n
  else Raise RuntimeError.

(** The position read in a dimension of size [n] for position [i] of the
    broadcast result. *)
Definition broadcast_pos (n i : nat) : nat :=
  if bool_decide (n = 1) then 0 else i.

Definition broadcast_get (a : Tensor3 bool) (i0 i1 i2 : nat) : bool :=
  default false (get3 a (broadcast_pos (t3_size0 a) i0)
                        (broadcast_pos (t3_size1 a) i1)
                        (broadcast_pos (t3_size2 a) i2)).

(** [a & b] on boolean tensors. *)
Definition tensor_and (a b : Tensor3 bool) : result (Tensor3 bool) :=
  d0 ← broadcast_dim (t3_size0 a) (t3_size0 b);
  d1 ← broadcast_dim (t3_size1 a) (t3_size1 b);
  d2 ← broadcast_dim (t3_size2 a) (t3_size2 b);
  mret (mkT3 d0 d1 d2
          ((fun i0 : nat =>
              (fun i1 : nat =>
                 (fun i2 : nat => broadcast_get a i0 i1 i2 && broadcast_get b i0 i1 i2)
                   <$> seq 0 d2)
                <$> seq 0 d1)
             <$> seq 0 d0)).

(** [t[:, :-1, :]] and [t[:, 1:, :]] *)
Definition drop_last_step {A} (t : Tensor3 A) : Tensor3 A :=
  mkT3 (t3_size0 t) (t3_size1 t - 1) (t3_size2 t)
       ((fun m : list (list A) => take (t3_size1 t - 1) m) <$> t3_data t).

Definition drop_first_step {A} (t : Tensor3 A) : Tensor3 A :=
  mkT3 (t3_size0 t) (t3_size1 t - 1) (t3_size2 t)
       ((fun m : list (list A) => drop 1 m) <$> t3_data t).

Section WithScalar.
Context {F : Type} `{Scalar F}.

(** [(src != pad).unsqueeze(-2)], the mask over the source tokens. *)
Definition src_mask_of (src : Tensor2 Z) (pad : Z) : Tensor3 bool :=
  mkT3 (t2_size0 src) 1 (t2_size1 src)
       ((fun row : list Z => [(fun v : Z => negb (bool_decide (v = pad))) <$> row])
          <$> t2_data src).

(** [(t.sum(dim=-1) != pad)]: one boolean per frame. *)
Definition frame_mask (pad : Z) (m : list (list F)) : list bool :=
  (fun frame : list F => negb (feqb (fsum frame) (of_int pad))) <$> m.

(** Frame [j] of sequence [b] of a target. *)
Definition frame_at (tgt : Tensor3 F) (b j : nat) : option (list F) :=
  t3_data tgt !! b ≫= fun m : list (list F) => m !! j.

(** [Batch.make_std_mask] *)
Definition make_std_mask (tgt : Tensor3 F) (pad : Z) : result (Tensor3 bool) :=
  let tgt_mask :=
    mkT3 (t3_size0 tgt) 1 (t3_size1 tgt)
         ((fun m : list (list F) => [frame_mask pad m]) <$> t3_data tgt) in
  sm ← subsequent_mask (Z.of_nat (t3_size1 tgt));
  tensor_and tgt_mask sm.

(** What the caller passes as [trg_set]. *)
Inductive pyobj : Type :=
| PyDict (d : gmap string (Tensor3 F))
| PyIntTensor (t : Tensor2 Z)
| PyTensor (t : Tensor3 F).

(** [o[key]] for a string [key]: a dictionary looks the key up, a tensor
    refuses a string index with [IndexError]. *)
Definition getitem (o : pyobj) (key : string) : result (Tensor3 F) :=
  match o with
  | PyDict d =>
      match d !! key with
      | Some t => Ok t
      | None => Raise KeyError
      end
  | PyIntTensor _ | PyTensor _ => Raise IndexError
  end.

(** The attributes set when a target is given. *)
Record Target : Type := mkTarget {
  trg : Tensor3 F;
  trg_y : Tensor3 F;
  trg_mask : Tensor3 bool;
  nframes : Z;
  trg_stops : Tensor3 F;
  stop_tokens : Tensor3 F
}.

Record Batch : Type := mkBatch {
  src : Tensor2 Z;
  src_mask : Tensor3 bool;
  target : option Target
}.

(** [Batch.__init__]; a caller that leaves [pad] out passes the pad token
    of the hyperparameters. *)
Definition Batch_init (src : Tensor2 Z) (trg_set : option pyobj) (pad : Z)
    : result Batch :=
  let src_mask :=
    mkT3 (t2_size0 src) 1 (t2_size1 src)
         ((fun row : list Z => [(fun v : Z => negb (bool_decide (v = pad))) <$> row])
            <$> t2_data src) in
  match trg_set with
  | None => Ok (mkBatch src src_mask None)
  | Some trg_set =>
      trg0 ← getitem trg_set "trg";
      let trg := drop_last_step trg0 in
      let trg_y := drop_first_step trg0 in
      trg_mask ← make_std_mask trg pad;
      let nframes :=
        Z.of_nat (length (filter (fun b : bool => b = true)
                                 (concat (frame_mask pad <$> t3_data trg_y)))) in
      trg_stops ← getitem trg_set "trg_stops";
      let stop_tokens := drop_first_step trg_stops in
      Ok (mkBatch src src_mask
            (Some (mkTarget trg trg_y trg_mask nframes trg_stops stop_tokens)))
  end.

(** numpy's generator: a stream of raw draws and a cursor into it. *)
Record rng : Type := mkRng {
  draws : nat -> Z;
  cursor : nat
}.

(** [np.random.randint(low, high, size=(rows, cols))]: every entry lies in
    [low, high); an empty range or a negative size raises [ValueError]. *)
Definition randint (low high rows cols : Z) (g : rng) : result (Tensor2 Z * rng) :=
  if bool_decide (high <= low)%Z then Raise ValueError
  else if bool_decide (rows < 0 \/ cols < 0)%Z then Raise ValueError
  else
    let n := Z.to_nat rows in
    let m := Z.to_nat cols in
    Ok (mkT2 n m
          ((fun i : nat =>
              (fun j : nat =>
                 (low + draws g (cursor g + i * m + j) `mod` (high - low))%Z)
                <$> seq 0 m)
             <$> seq 0 n),
        mkRng (draws g) (cursor g + n * m)).

(** The two statements of [data_gen] that build [data]. *)
Definition copy_task_data (V batch : Z) (g : rng) : result (Tensor2 Z * rng) :=
  r ← randint 1 V batch 10 g;
  data ← set_column 0 1%Z (fst r);
  mret (data, snd r).

(** The body of the loop of [data_gen]; [.to(device)] keeps the data. *)
Definition data_gen_body (V batch : Z) (g : rng) : result (Batch * rng) :=
  r ← copy_task_data V batch g;
  let src := fst r in
  let tgt := fst r in
  b ← Batch_init src (Some (PyIntTensor tgt)) 0;
  mret (b, snd r).

(** A run of the generator to its end: the batches it yields, and the
    exception that ends it, if one does. *)
Fixpoint data_gen_loop (n : nat) (V batch : Z) (g : rng) : list Batch * option exn :=
  match n with
  | 0 => ([], None)
  | S n' =>
      match data_gen_body V batch g with
      | Raise e => ([], Some e)
      | Ok (b, g') =>
          let (bs, e) := data_gen_loop n' V batch g' in (b :: bs, e)
      end
  end.

(** [data_gen]; [range(nbatches)] is empty for a negative [nbatches]. *)
Definition data_gen (V batch nbatches : Z) (device : string) (g : rng)
    : list Batch * option exn :=
  data_gen_loop (Z.to_nat nbatches) V batch g.

(** The dictionary that [data_prepare_tt2] returns and [data_gen_tt2]
    reads: the source, target and stop-label batches, and the vocabulary
    ([None] until a sample has supplied one). *)
Record tt2_data (Vocab : Type) : Type := mkTT2Data {
  data_src : list (Tensor2 Z);
  data_tgt : list (Tensor3 F);
  data_tgt_stops : list (Tensor3 F);
  data_vocab : option Vocab
}.
Arguments mkTT2Data {Vocab} _ _ _ _.
Arguments data_src {Vocab} _.
Arguments data_tgt {Vocab} _.
Arguments data_tgt_stops {Vocab} _.
Arguments data_vocab {Vocab} _.

(** The loop of [data_gen_tt2] over [zip(src, tgt, tgt_stops)], which
    ends with the shortest of the three lists; [Batch] falls back on the
    pad token of the hyperparameters. *)
Fixpoint data_gen_tt2_loop (hp : hyperparams F) (srcs : list (Tensor2 Z))
    (tgts stops : list (Tensor3 F)) {struct srcs} : list Batch * option exn :=
  match srcs, tgts, stops with
  | phoneme_batch :: srcs', mel_batch :: tgts', mel_stops :: stops' =>
      match Batch_init phoneme_batch
              (Some (PyDict (<["trg" := mel_batch]> (<["trg_stops" := mel_stops]> ∅))))
              (pad_token hp) with
      | Raise e => ([], Some e)
      | Ok b =>
          let (bs, e) := data_gen_tt2_loop hp srcs' tgts' stops' in (b :: bs, e)
      end
  | _, _, _ => ([], None)
  end.

(** [data_gen_tt2]; [.to(device)] keeps the data. *)
Definition data_gen_tt2 {Vocab} (hp : hyperparams F) (data : tt2_data Vocab)
    (device : string) : list Batch * option exn :=
  data_gen_tt2_loop hp (data_src data) (data_tgt data) (data_tgt_stops data).

(** A batch as torchtext hands it over, sequence position first. *)
Record torchtext_batch : Type := mkTorchtextBatch {
  tt_src : Tensor2 Z;
  tt_trg : Tensor2 Z
}.

(** [t.transpose(0, 1)] *)
Definition transpose {A} (t : Tensor2 A) : Tensor2 A :=
  mkT2 (t2_size1 t) (t2_size0 t)
       ((fun j : nat => omap (fun row : list A => row !! j) (t2_data t))
          <$> seq 0 (t2_size1 t)).

(** [rebatch] *)
Definition rebatch (pad_idx : Z) (batch : torchtext_batch) : result Batch :=
  let src := transpose (tt_src batch) in
  let trg := transpose (tt_trg batch) in
  Batch_init src (Some (PyIntTensor trg)) pad_idx.

Section Prepare.

(** The sampling helper [utils.get_sample_batch] is not part of this
    file and is a parameter: called with a batch size, a start offset
    ([None] when left out), the vocabulary so far and the [random] flag, it
    acts on the state [St] of the data source and returns the dictionary
    [sample_batch]. *)
Context {Vocab St : Type}.

Record sample_batch : Type := mkSampleBatch {
  sample_src : Tensor2 Z;
  sample_tgt : Tensor3 F;
  sample_tgt_stops : Tensor3 F;
  sample_vocab : option Vocab
}.

Context (get_sample_batch :
           Z -> option Z -> option Vocab -> bool -> St -> sample_batch * St).

(** [_append(b)] followed by [vocab = b['vocab']]. *)
Definition append_sample (d : tt2_data Vocab) (b : sample_batch) : tt2_data Vocab :=
  mkTT2Data (data_src d ++ [sample_src b]) (data_tgt d ++ [sample_tgt b])
            (data_tgt_stops d ++ [sample_tgt_stops b]) (sample_vocab b).

(** [_append(b)] alone: the vocabulary stays. *)
Definition append_only (d : tt2_data Vocab) (b : sample_batch) : tt2_data Vocab :=
  mkTT2Data (data_src d ++ [sample_src b]) (data_tgt d ++ [sample_tgt b])
            (data_tgt_stops d ++ [sample_tgt_stops b]) (data_vocab d).

(** The loop of the sequential branch, from iteration [i] on. *)
Fixpoint sequential_loop (batch_size : Z) (random : bool) (n : nat) (i : Z)
    (d : tt2_data Vocab) (st : St) : tt2_data Vocab * St :=
  match n with
  | 0 => (d, st)
  | S n' =>
      let (batch, st') :=
        get_sample_batch batch_size (Some (i * batch_size)%Z) (data_vocab d) random st in
      sequential_loop batch_size random n' (i + 1)%Z (append_sample d batch) st'
  end.

(** The loop of the other branch; [batch] is the sample drawn last. *)
Fixpoint repeat_loop (batch_size : Z) (random : bool) (n : nat)
    (batch : sample_batch) (d : tt2_data Vocab) (st : St) : tt2_data Vocab * St :=
  match n with
  | 0 => (d, st)
  | S n' =>
      if random then
        let (batch', st') := get_sample_batch batch_size None (data_vocab d) random st in
        repeat_loop batch_size random n' batch' (append_sample d batch') st'
      else repeat_loop batch_size random n' batch (append_only d batch) st
  end.

(** [data_prepare_tt2] *)
Definition data_prepare_tt2 (batch_size nbatches : Z) (random sequential : bool)
    (st : St) : tt2_data Vocab * St :=
  let d0 := mkTT2Data [] [] [] None in
  if sequential then
    sequential_loop batch_size random (Z.to_nat nbatches) 0 d0 st
  else
    let (batch, st') := get_sample_batch batch_size None None random st in
    repeat_loop batch_size random (Z.to_nat (nbatches - 1)) batch
      (append_sample d0 batch) st'.

(** The three lists of a dictionary have [n] entries each. *)
Definition has_batches (n : nat) (d : tt2_data Vocab) : Prop :=
  length (data_src d) = n /\ length (data_tgt d) = n /\ length (data_tgt_stops d) = n.

(** The number of batches [data_prepare_tt2] prepares. *)
Definition prepared_count (nbatches : Z) (sequential : bool) : nat :=
  if sequential then Z.to_nat nbatches else S (Z.to_nat (nbatches - 1)).

End Prepare.

(** The padding mask in the words of the specification: a position is
    marked when its value is not the pad token. The value of a position of
    a target of feature vectors is a frame; it is the pad token when every
    feature is. *)
Definition spec_frame_mask (pad : Z) (m : list (list F)) : list bool :=
  (fun frame : list F =>
     negb (forallb (fun v : F => feqb v (of_int pad)) frame)) <$> m.

(** The combined mask in the words of the specification. *)
Definition spec_std_mask (tgt : Tensor3 F) (pad : Z) : result (Tensor3 bool) :=
  let tgt_mask :=
    mkT3 (t3_size0 tgt) 1 (t3_size1 tgt)
         ((fun m : list (list F) => [spec_frame_mask pad m]) <$> t3_data tgt) in
  sm ← subsequent_mask (Z.of_nat (t3_size1 tgt));
  tensor_and tgt_mask sm.

End WithScalar.
Arguments pyobj F : clear implicits.
Arguments Target F : clear implicits.
Arguments Batch F : clear implicits.
Arguments tt2_data F Vocab : clear implicits.
Arguments sample_batch F Vocab : clear implicits.
Arguments mkTT2Data {F Vocab} _ _ _ _.
Arguments data_src {F Vocab} _.
Arguments data_tgt {F Vocab} _.
Arguments data_tgt_stops {F Vocab} _.
Arguments data_vocab {F Vocab} _.
Arguments mkSampleBatch {F Vocab} _ _ _ _.
Arguments sample_src {F Vocab} _.
Arguments sample_tgt {F Vocab} _.
Arguments sample_tgt_stops {F Vocab} _.
Arguments sample_vocab {F Vocab} _.
End Masking.

(** ** Loss computation ([SimpleLossCompute], [SimpleTT2LossCompute]) *)

Module Loss.
Section WithScalar.
Context {F : Type} `{Scalar F}.

(** The calls into torch that act on the training state [W] (the
    gradients and parameters of the model): [loss.backward()] and
    [nn.utils.clip_grad_norm_(model.parameters(), max_norm)], for a model
    of type [M]. *)
Record Autograd (W M : Type) : Type := mkAutograd {
  backward : F -> W -> W;
  clip_grad_norm_ : M -> F -> W -> W
}.
Arguments backward {W M} _ _ _.
Arguments clip_grad_norm_ {W M} _ _ _ _.

(** What a loss-compute object asks of its optimizer wrapper [opt]:
    [opt.step(loss)] (the loss left out by [SimpleLossCompute]) and
    [opt.optimizer.zero_grad()]. *)
Record OptWrapper (W : Type) : Type := mkOptWrapper {
  opt_step : option F -> W -> result W;
  zero_grad : W -> W
}.
Arguments opt_step {W} _ _ _.
Arguments zero_grad {W} _ _.

(** [if self.opt is not None: self.opt.step(loss); self.opt.optimizer.zero_grad()] *)
Definition step_and_clear {W} (opt : option (OptWrapper W)) (loss : option F) (w : W)
    : result W :=
  match opt with
  | None => Ok w
  | Some o => w' ← opt_step o loss w; mret (zero_grad o w')
  end.

(** [x.contiguous().view(-1, x.size(-1))]; torch cannot resolve the [-1]
    when the last dimension is empty. *)
Definition view_rows (x : Tensor3 F) : result (Tensor2 F) :=
  if bool_decide (t3_size2 x = 0) then Raise RuntimeError
  else Ok (mkT2 (t3_size0 x * t3_size1 x) (t3_size2 x) (concat (t3_data x))).

(** [y.contiguous().view(-1)] *)
Definition view_flat (y : Tensor2 Z) : list Z := concat (t2_data y).

Record SimpleLossCompute (W : Type) : Type := mkSimpleLossCompute {
  generator : Tensor3 F -> Tensor3 F;
  criterion : Tensor2 F -> list Z -> result F;
  opt : option (OptWrapper W)
}.
Arguments generator {W} _ _.
Arguments criterion {W} _ _ _.
Arguments opt {W} _.

(** [SimpleLossCompute.__call__] *)
Definition SimpleLossCompute_call {W M} (torch : Autograd W M)
    (self : SimpleLossCompute W) (x : Tensor3 F) (y : Tensor2 Z) (norm : F) (w : W)
    : result (F * W) :=
  let x := generator self x in
  rows ← view_rows x;
  c ← criterion self rows (view_flat y);
  let loss := fdiv c norm in
  let w := backward torch loss w in
  w ← step_and_clear (opt self) None w;
  mret (fmul loss norm, w).

(** The raw criterion value of a call: the criterion on the flattened
    generator output and the flattened targets. *)
Definition raw_criterion {W} (self : SimpleLossCompute W) (x : Tensor3 F)
    (y : Tensor2 Z) : result F :=
  rows ← view_rows (generator self x);
  criterion self rows (view_flat y).

(** [t[:, -1, :] *= wt]; the index [-1] needs a time step to exist. *)
Definition scale_last (wt : F) (t : Tensor3 F) : result (Tensor3 F) :=
  i ← py_index (t3_size1 t) (-1);
  mret (mkT3 (t3_size0 t) (t3_size1 t) (t3_size2 t)
          ((fun m : list (list F) =>
              alter (fun frame : list F => (fun v : F => fmul v wt) <$> frame) i m)
             <$> t3_data t)).

(** [torch.mean(t)] *)
Definition mean (t : Tensor3 F) : F :=
  fdiv (fsum (concat (concat (t3_data t))))
       (of_int (Z.of_nat (t3_size0 t * t3_size1 t * t3_size2 t))).

Record SimpleTT2LossCompute (W : Type) : Type := mkSimpleTT2LossCompute {
  tt2_criterion : Tensor3 F -> Tensor3 F -> result F;
  stop : Tensor3 F -> Tensor3 F -> result (Tensor3 F);
  tt2_opt : option (OptWrapper W)
}.
Arguments tt2_criterion {W} _ _ _.
Arguments stop {W} _ _ _.
Arguments tt2_opt {W} _.

(** [SimpleTT2LossCompute.__call__]; the timing printed around the
    backward pass does not touch the training state. *)
Definition SimpleTT2LossCompute_call {W M} (hp : hyperparams F) (torch : Autograd W M)
    (self : SimpleTT2LossCompute W) (x y stop_x stop_y : Tensor3 F) (norm : F)
    (model : M) (w : W) : result (F * W) :=
  stop_loss ← stop self stop_x stop_y;
  stop_loss ← scale_last (positive_stop_weight hp) stop_loss;
  let stop_loss := mean stop_loss in
  c ← tt2_criterion self x y;
  let loss := fadd c (fmul (loss_w_stop hp) stop_loss) in
  let w := backward torch loss w in
  let w := clip_grad_norm_ torch model fone w in
  w ← step_and_clear (tt2_opt self) (Some loss) w;
  mret (fmul loss norm, w).

(** A training state that records the calls made on it, in order. *)
Inductive event : Type :=
| EvBackward (loss : F)
| EvClipGradNorm (max_norm : F)
| EvStep (loss : option F)
| EvZeroGrad.

Definition recording_torch : Autograd (list event) unit :=
  {| backward := fun loss w => w ++ [EvBackward loss];
     clip_grad_norm_ := fun _ max_norm w => w ++ [EvClipGradNorm max_norm] |}.

Definition recording_opt : OptWrapper (list event) :=
  {| opt_step := fun loss w => Ok (w ++ [EvStep loss]);
     zero_grad := fun w => w ++ [EvZeroGrad] |}.

(** The division by [norm] and the multiplication by [norm] cancel: a
    call with a nonzero [norm] whose criterion returns [c] and whose
    optimizer step succeeds returns exactly [c]. *)
Definition norm_cancels : Prop :=
  forall (W M : Type) (torch : Autograd W M) (self : SimpleLossCompute W)
         (x : Tensor3 F) (y : Tensor2 Z) (norm : F) (w : W) (c : F),
    norm <> fzero ->
    raw_criterion self x y = Ok c ->
    (exists w', step_and_clear (opt self) None (backward torch (fdiv c norm) w) = Ok w') ->
    exists w', SimpleLossCompute_call torch self x y norm w = Ok (c, w').

End WithScalar.
Arguments Autograd F W M : clear implicits.
Arguments OptWrapper F W : clear implicits.
Arguments SimpleLossCompute F W : clear implicits.
Arguments SimpleTT2LossCompute F W : clear implicits.
Arguments event F : clear implicits.
Arguments norm_cancels F {_}.
Arguments backward {F W M} _ _ _.
Arguments clip_grad_norm_ {F W M} _ _ _ _.
Arguments opt_step {F W} _ _ _.
Arguments zero_grad {F W} _ _.
Arguments generator {F W} _ _.
Arguments criterion {F W} _ _ _.
Arguments opt {F W} _.
Arguments tt2_criterion {F W} _ _ _.
Arguments stop {F W} _ _ _.
Arguments tt2_opt {F W} _.
End Loss.

(** ** Sample inputs *)

(** A batch of two predictions over five classes, in binary64. *)
Definition x_2x5 : Tensor2 float :=
  mkT2 2 5 [[0.5; 0.125; 0.125; 0.125; 0.125];
            [0.25; 0.25; 0.25; 0.125; 0.125]]%float.

(** A batch of one prediction over two classes. *)
Definition x_1x2 : Tensor2 float := mkT2 1 2 [[0.5; 0.5]]%float.

(** A stand-in for the divergence, which the claims do not depend on. *)
Definition no_divergence : Tensor2 float -> Tensor2 float -> float :=
  fun _ _ => 0%float.

(** A target of one sequence with one frame whose two features cancel. *)
Definition cancelling_target : Tensor3 float :=
  mkT3 1 1 2 [[[1; -1]]]%float.

(** A target of one sequence with a voiced frame and a padding frame. *)
Definition padded_target : Tensor3 float :=
  mkT3 1 2 2 [[[0.5; 0.25]; [0; 0]]]%float.

(** A generator state whose raw draws count up from zero. *)
Definition counting_rng : Masking.rng := Masking.mkRng Z.of_nat 0.

(** Hyperparameters: pad token 0, the final stop step weighted by 8, the
    stop loss counted in full. *)
Definition sample_hp : hyperparams float := mkHyperparams 0 8%float 1%float.

(** A stop criterion that returns the given per-frame losses. *)
Definition sample_stop_loss : Tensor3 float :=
  mkT3 1 3 1 [[[0.5]; [0.25]; [0.125]]]%float.

Definition sample_tt2 : Loss.SimpleTT2LossCompute float (list (Loss.event float)) :=
  {| Loss.tt2_criterion := fun _ _ => Ok 2%float;
     Loss.stop := fun _ _ => Ok sample_stop_loss;
     Loss.tt2_opt := Some Loss.recording_opt |}.

(** A model output of one sequence, three steps, one class score. *)
Definition sample_output : Tensor3 float :=
  mkT3 1 3 1 [[[0.5]; [0.25]; [0.125]]]%float.

Definition sample_labels : Tensor2 Z := mkT2 1 3 [[0; 1; 0]%Z].

(** A loss compute in binary64 whose criterion returns 1, without an
    optimizer. *)
Definition unit_loss : Loss.SimpleLossCompute float (list (Loss.event float)) :=
  {| Loss.generator := fun x => x;
     Loss.criterion := fun _ _ => Ok 1%float;
     Loss.opt := None |}.

(** The same over the reals, with a criterion that returns 3 and an
    optimizer wrapper. *)
Definition sample_output_real : Tensor3 R :=
  mkT3 1 3 1 [[[1%R]; [2%R]; [3%R]]].

Definition real_loss : Loss.SimpleLossCompute R (list (Loss.event R)) :=
  {| Loss.generator := fun x => x;
     Loss.criterion := fun _ _ => Ok 3%R;
     Loss.opt := Some Loss.recording_opt |}.

(** [get_std_opt] for a model of width 512 over an Adam optimizer with
    two parameter groups. *)
Definition std_opt_two_groups : Noam.NoamOpt :=
  Noam.get_std_opt 512
    {| Noam.param_groups :=
         [ {["lr" := Noam.PyFloat 0; "eps" := Noam.PyFloat 1]};
           {["lr" := Noam.PyFloat 0]} ];
       Noam.updates := 0 |}.

(** A wrapper whose warmup is zero. *)
Definition zero_warmup_opt : Noam.NoamOpt :=
  Noam.init 512 2 0 {| Noam.param_groups := [ {["lr" := Noam.PyFloat 0]} ];
                       Noam.updates := 0 |}.

(** A scheduler that halves every learning rate it finds, and a
    [CustomAdam] built on it over two parameter groups. *)
Definition halving_scheduler (loss : option R) (sch : unit) (o : Noam.Optimizer)
    : unit * Noam.Optimizer :=
  (sch,
   {| Noam.param_groups :=
        (fun p : gmap string Noam.pynum =>
           match p !! "lr" with
           | Some (Noam.PyFloat r) => <["lr" := Noam.PyFloat (r / 2)]> p
           | _ => p
           end) <$> Noam.param_groups o;
      Noam.updates := Noam.updates o |}).

Definition adam_two_groups : Adam.CustomAdam unit :=
  Adam.init
    {| Noam.param_groups :=
         [ {["lr" := Noam.PyFloat 1]}; {["lr" := Noam.PyFloat 2]} ];
       Noam.updates := 0 |}
    (Some ()).

(** The same wrapper over an optimizer whose second group has no ['lr']. *)
Definition adam_missing_lr : Adam.CustomAdam unit :=
  Adam.init
    {| Noam.param_groups :=
         [ {["lr" := Noam.PyFloat 1]}; {["eps" := Noam.PyFloat 2]};
           {["lr" := Noam.PyFloat 3]} ];
       Noam.updates := 0 |}
    (Some ()).

(** The batch [x_2x5] with other predictions, and over the reals. *)
Definition x_2x5_other : Tensor2 float :=
  mkT2 2 5 [[0.125; 0.125; 0.5; 0.125; 0.125];
            [0.125; 0.125; 0.25; 0.25; 0.25]]%float.

Definition x_2x5_real : Tensor2 R :=
  mkT2 2 5 [[1; 2; 3; 4; 5]; [5; 4; 3; 2; 1]]%R.

Definition no_divergence_real : Tensor2 R -> Tensor2 R -> R := fun _ _ => 0%R.

(** A target of one sequence of three frames, the last one padding, and
    a dictionary that holds it with its stop labels. *)
Definition three_step_target : Tensor3 float :=
  mkT3 1 3 2 [[[0.5; 0.25]; [0.5; 0.5]; [0; 0]]]%float.

Definition sample_trg_set : gmap string (Tensor3 float) :=
  <["trg" := three_step_target]> (<["trg_stops" := sample_stop_loss]> ∅).

(** A data source that hands out the same sample and counts the calls. *)
Definition counting_sampler (batch_size : Z) (start : option Z) (vocab : option unit)
    (random : bool) (calls : nat) : Masking.sample_batch float unit * nat :=
  (Masking.mkSampleBatch sample_labels three_step_target sample_stop_loss (Some ()),
   S calls).

(** A stop loss without a time step, and a loss compute that meets it. *)
Definition empty_stop_loss : Tensor3 float := mkT3 1 0 1 [[]].

Definition empty_tt2 : Loss.SimpleTT2LossCompute float (list (Loss.event float)) :=
  {| Loss.tt2_criterion := fun _ _ => Ok 2%float;
     Loss.stop := fun _ _ => Ok empty_stop_loss;
     Loss.tt2_opt := Some Loss.recording_opt |}.

(** A target over the reals with one feature per frame. *)
Definition single_feature_target : Tensor3 R :=
  mkT3 1 2 1 [[[3%R]; [0%R]]].

(** ** The schedule: facts about [NoamOpt.rate] *)

Section NoamFacts.
Import Noam.
Local Open Scope R_scope.

Lemma Rpower_pos x y : 0 < Rpower x y.
Proof. unfold Rpower. apply exp_pos. Qed.

Lemma pow_frac_pos x y : 0 < x -> pow_frac x y = Ok (PyFloat (Rpower x y)).
Proof.
  intros Hx. unfold pow_frac. destruct (Rlt_dec 0 x) as [_|Hn]; [reflexivity|].
  contradiction.
Qed.

Lemma pow_frac_zero y : pow_frac 0 y = Raise ZeroDivisionError.
Proof.
  unfold pow_frac. destruct (Rlt_dec 0 0) as [Hlt|_]; [lra|].
  destruct (Req_dec_T 0 0) as [_|Hne]; [reflexivity|lra].
Qed.

Lemma py_min_val x y : (if Rlt_dec y x then y else x) = Rmin x y.
Proof.
  unfold Rmin. destruct (Rlt_dec y x) as [Hlt|Hge], (Rle_dec x y) as [Hle|Hgt]; lra.
Qed.

Lemma rate_pos (self : NoamOpt) (s : R) :
  0 < model_size self -> 0 < warmup self -> 0 < s ->
  rate self (Some s) =
  Ok (PyFloat (factor self *
               (Rpower (model_size self) (-0.5) *
                Rmin (Rpower s (-0.5)) (s * Rpower (warmup self) (-1.5))))).
Proof.
  intros Hm Hw Hs. unfold rate.
  rewrite !pow_frac_pos by assumption. cbn.
  rewrite py_min_val. reflexivity.
Qed.

(** A negative power reverses the order of positive bases. *)
Lemma Rpower_neg_antitone a b c :
  0 < c -> 0 < a -> a <= b -> Rpower b (- c) <= Rpower a (- c).
Proof.
  intros Hc Ha Hab. rewrite !Rpower_Ropp.
  apply Rinv_le_contravar; [apply Rpower_pos|].
  apply Rle_Rpower_l; lra.
Qed.

Lemma Rpower_neg_strict a b c :
  0 < c -> 0 < a -> a < b -> Rpower b (- c) < Rpower a (- c).
Proof.
  intros Hc Ha Hab. rewrite !Rpower_Ropp.
  apply Rinv_lt_contravar.
  - apply Rmult_lt_0_compat; apply Rpower_pos.
  - apply Rlt_Rpower_l; lra.
Qed.

(** [s ** -0.5 = s * s ** -1.5] for a positive [s]. *)
Lemma Rpower_half_split s : 0 < s -> Rpower s (-0.5) = s * Rpower s (-1.5).
Proof.
  intros Hs. replace (-0.5) with (1 + -1.5) by lra.
  rewrite Rpower_plus, Rpower_1 by assumption. reflexivity.
Qed.

(** During warmup the linear branch is the smaller one. *)
Lemma min_during_warmup s w :
  0 < s -> s <= w ->
  Rmin (Rpower s (-0.5)) (s * Rpower w (-1.5)) = s * Rpower w (-1.5).
Proof.
  intros Hs Hsw. apply Rmin_right. rewrite (Rpower_half_split s Hs).
  apply Rmult_le_compat_l; [lra|].
  replace (-1.5) with (- (1.5)) by lra. apply Rpower_neg_antitone; lra.
Qed.

(** After warmup the inverse square root is the smaller one. *)
Lemma min_after_warmup s w :
  0 < w -> w <= s ->
  Rmin (Rpower s (-0.5)) (s * Rpower w (-1.5)) = Rpower s (-0.5).
Proof.
  intros Hw Hws. apply Rmin_left. rewrite (Rpower_half_split s) by lra.
  apply Rmult_le_compat_l; [lra|].
  replace (-1.5) with (- (1.5)) by lra. apply Rpower_neg_antitone; lra.
Qed.

(** The schedule at a positive step, with the minimum resolved by the
    position of the step with respect to [warmup]. *)
Lemma rate_during_warmup (self : NoamOpt) (s : Z) :
  0 < model_size self -> (1 <= s)%Z -> IZR s <= warmup self ->
  rate_is self s
    (factor self * (Rpower (model_size self) (-0.5) *
                    (IZR s * Rpower (warmup self) (-1.5)))).
Proof.
  intros Hm Hs Hsw. assert (0 < IZR s) by (apply IZR_lt; lia).
  unfold rate_is. rewrite rate_pos by lra.
  rewrite min_during_warmup by lra. reflexivity.
Qed.

Lemma rate_after_warmup (self : NoamOpt) (s : Z) :
  0 < model_size self -> 0 < warmup self -> warmup self <= IZR s ->
  rate_is self s
    (factor self * (Rpower (model_size self) (-0.5) * Rpower (IZR s) (-0.5))).
Proof.
  intros Hm Hw Hws. unfold rate_is. rewrite rate_pos by lra.
  rewrite min_after_warmup by lra. reflexivity.
Qed.

(** With a positive factor the schedule rises, then decays. *)
Lemma rises_then_decays_pos (self : NoamOpt) :
  0 < warmup self -> 0 < model_size self -> 0 < factor self ->
  rises_then_decays self.
Proof.
  intros Hw Hm Hf. split.
  - intros s1 s2 H1 H12 H2w.
    assert (IZR s1 <= IZR s2) by (apply IZR_le; lia).
    do 2 eexists. split; [|split].
    + apply rate_during_warmup; [assumption..|lra].
    + apply rate_during_warmup; [assumption|lia|assumption].
    + apply Rmult_le_compat_l; [lra|].
      apply Rmult_le_compat_l; [left; apply Rpower_pos|].
      apply Rmult_le_compat_r; [left; apply Rpower_pos|assumption].
  - intros s1 s2 Hw1 H12.
    assert (IZR s1 < IZR s2) by (apply IZR_lt; lia).
    do 2 eexists. split; [|split].
    + apply rate_after_warmup; [assumption..|lra].
    + apply rate_after_warmup; [assumption..|lra].
    + apply Rmult_lt_compat_l; [assumption|].
      apply Rmult_lt_compat_l; [apply Rpower_pos|].
      replace (-0.5) with (- (0.5)) by lra. apply Rpower_neg_strict; lra.
Qed.

Lemma flat_opt_rate (s : Z) : (1 <= s)%Z -> rate_is flat_opt s 0.
Proof.
  intros Hs. assert (0 < IZR s) by (apply IZR_lt; lia).
  unfold rate_is. rewrite rate_pos by (cbn; lra).
  cbn [factor flat_opt init]. do 2 f_equal. ring.
Qed.

(** Before the first [step] the counter is 0 and [rate()] divides by zero. *)
Example rate_before_first_step :
  rate (get_std_opt 512 {| param_groups := []; updates := 0 |}) None =
  Raise ZeroDivisionError.
Proof.
  unfold rate. cbn. rewrite (pow_frac_pos 512), pow_frac_zero by lra. reflexivity.
Qed.

(** C1. For a [NoamOpt] with positive [model_size], [factor] and [warmup]
    and a positive step (given, or the wrapper's own counter when the
    argument is left out), [rate] returns
    [factor * model_size^(-0.5) * min (step^(-0.5)) (step * warmup^(-1.5))]. *)
Theorem C1_rate_formula (self : NoamOpt) (step : option R) :
  let s := default (IZR (_step self)) step in
  0 < model_size self -> 0 < factor self -> 0 < warmup self -> 0 < s ->
  rate self step =
  Ok (PyFloat (factor self * Rpower (model_size self) (-0.5) *
               Rmin (Rpower s (-0.5)) (s * Rpower (warmup self) (-1.5)))).
Proof.
  intros s Hm _ Hw Hs.
  assert (rate self step = rate self (Some s)) as -> by (destruct step; reflexivity).
  rewrite rate_pos by assumption. do 2 f_equal. ring.
Qed.

(** The standard schedule of [get_std_opt] (factor 2, warmup 4000) on a
    model of width 512, queried at step 100. *)
Lemma C1_rate_formula_witness :
  let self := get_std_opt 512 {| param_groups := []; updates := 0 |} in
  rate self (Some 100) =
  Ok (PyFloat (2 * Rpower 512 (-0.5) *
               Rmin (Rpower 100 (-0.5)) (100 * Rpower 4000 (-1.5)))).
Proof.
  intros self. apply (C1_rate_formula self (Some 100)); cbn; lra.
Defined.




End NoamFacts.

(** ** Label smoothing: facts about [LabelSmoothing.forward] *)

Section SmoothingFacts.
Import Smoothing.
Context {F : Type} `{Scalar F}.

Lemma py_index_nonneg (n : nat) (k : Z) :
  (0 <= k < Z.of_nat n)%Z -> py_index n k = Ok (Z.to_nat k).
Proof. intros Hk. unfold py_index. rewrite bool_decide_eq_true_2; done. Qed.

Lemma py_index_raise (n : nat) (k : Z) (e : exn) :
  py_index n k = Raise e -> e = IndexError.
Proof. unfold py_index. repeat case_bool_decide; congruence. Qed.

Lemma py_div_int_raise (a : F) (b : Z) (e : exn) :
  py_div_int a b = Raise e -> e = ZeroDivisionError /\ b = 0%Z.
Proof. unfold py_div_int. case_bool_decide; [|done]. intros [= <-]. done. Qed.

Lemma scatter_rows_raise (rows : list (list F)) (index : list Z) (v : F) (e : exn) :
  scatter_rows rows index v = Raise e -> e = RuntimeError.
Proof.
  revert rows. induction index as [|k index IH]; intros rows; cbn; [done|].
  destruct rows as [|r rows]; [congruence|].
  case_bool_decide; [|congruence].
  destruct (scatter_rows rows index v) eqn:E; cbn; [done|].
  intros [= <-]. eauto.
Qed.

(** A scatter with as many indices as rows at most, all of them columns of
    the matrix, succeeds and touches one entry per indexed row. *)
Lemma scatter_rows_ok (m : nat) (rows : list (list F)) (index : list Z) (v : F) :
  length index <= length rows ->
  Forall (fun r => length r = m) rows ->
  Forall (fun k => (0 <= k < Z.of_nat m)%Z) index ->
  exists rows',
    scatter_rows rows index v = Ok rows' /\
    length rows' = length rows /\
    forall i r, rows !! i = Some r ->
      rows' !! i = Some (match index !! i with
                         | Some k => <[Z.to_nat k := v]> r
                         | None => r
                         end).
Proof.
  revert rows. induction index as [|k index IH]; intros rows Hlen Hrows Hidx; cbn.
  - exists rows. repeat split. intros i r Hi. by rewrite lookup_nil.
  - destruct rows as [|r0 rows]; [cbn in Hlen; lia|].
    apply Forall_cons in Hrows as [Hr0 Hrows]. apply Forall_cons in Hidx as [Hk Hidx].
    rewrite bool_decide_eq_true_2 by (rewrite Hr0; done).
    destruct (IH rows) as (rest & -> & Hl & Hget); [cbn in Hlen; lia|done..|].
    cbn. eexists. split; [reflexivity|]. split; [cbn; lia|].
    intros [|i] r; cbn; [by intros [= ->]|]. apply Hget.
Qed.

Lemma elem_of_nonzero_from (o k : nat) (bs : list bool) :
  k ∈ nonzero_from o bs <-> exists i, k = o + i /\ bs !! i = Some true.
Proof.
  revert o. induction bs as [|b bs IH]; intros o; cbn.
  - split; [by intros ?%elem_of_nil|]. by intros (i & _ & ?).
  - rewrite elem_of_app, IH. split.
    + intros [Hk|(i & -> & Hi)].
      * destruct b; [|by apply elem_of_nil in Hk].
        apply list_elem_of_singleton in Hk as ->. exists 0. split; [lia|done].
      * exists (S i). split; [lia|done].
    + intros ([|i] & -> & Hi); cbn in Hi.
      * injection Hi as ->. left. apply list_elem_of_singleton. lia.
      * right. exists i. split; [lia|done].
Qed.

Lemma elem_of_nonzero (k : nat) (bs : list bool) :
  k ∈ nonzero bs <-> bs !! k = Some true.
Proof.
  unfold nonzero. rewrite elem_of_nonzero_from. split; [by intros (i & -> & ?)|].
  intros Hk. by exists k.
Qed.

(** The rows that [forward] blanks are the rows of a padding target. *)
Lemma elem_of_padding_mask (pad : Z) (target : list Z) (i : nat) :
  i ∈ nonzero ((fun t => bool_decide (t = pad)) <$> target) <->
  target !! i = Some pad.
Proof.
  rewrite elem_of_nonzero, list_lookup_fmap.
  destruct (target !! i) as [t|]; cbn; [|done].
  case_bool_decide; naive_solver.
Qed.

Lemma padding_mask_in_range (pad : Z) (target : list Z) (n : nat) :
  length target <= n ->
  Forall (fun i => i < n) (nonzero ((fun t => bool_decide (t = pad)) <$> target)).
Proof.
  intros Hn. apply Forall_forall. intros i Hi%elem_of_padding_mask.
  apply lookup_lt_Some in Hi. lia.
Qed.

Lemma lookup_insert_total {A} (l : list A) (i : nat) (x : A) (j : nat) (y : A) :
  l !! j = Some y ->
  <[i := x]> l !! j = Some (if bool_decide (i = j) then x else y).
Proof.
  intros Hj. case_bool_decide as Hij.
  - subst i. apply list_lookup_insert_eq. by apply lookup_lt_Some in Hj.
  - by rewrite list_lookup_insert_ne.
Qed.

Lemma forward_ok (self : LabelSmoothing F) (x : Tensor2 F) (target : list Z) :
  wf2 x ->
  Z.of_nat (t2_size1 x) = size self ->
  size self <> 2%Z ->
  (0 <= padding_idx self < size self)%Z ->
  length target <= t2_size0 x ->
  Forall (fun t => (0 <= t < size self)%Z) target ->
  exists td,
    forward self x target =
      Ok ({| criterion := criterion self; padding_idx := padding_idx self;
             confidence := confidence self; smoothing := smoothing self;
             size := size self; true_dist := Some td |},
          criterion self x td) /\
    (t2_size0 td, t2_size1 td) = (t2_size0 x, t2_size1 x) /\
    (forall i j t, target !! i = Some t -> j < t2_size1 x ->
       get2 td i j = Some (smoothed_entry self t j)) /\
    (forall i, i < t2_size0 x ->
       get2 td i (Z.to_nat (padding_idx self)) = Some fzero).
Proof.
  intros [Hn Hrows] Hsize Hne Hpad Hlen Htgt. unfold forward.
  rewrite bool_decide_eq_true_2 by done.
  unfold py_div_int. rewrite bool_decide_eq_false_2 by lia. cbn.
  set (v := fdiv (smoothing self) (of_int (size self - 2))).
  set (filled := (fun r : list F => (fun _ => v) <$> r) <$> t2_data x).
  destruct (scatter_rows_ok (t2_size1 x) filled target (confidence self))
    as (rows1 & Hsc & Hl1 & Hget1).
  { unfold filled. rewrite length_fmap. lia. }
  { unfold filled. apply Forall_fmap. eapply Forall_impl; [exact Hrows|].
    intros r Hr. cbn. by rewrite length_fmap. }
  { by rewrite Hsize. }
  unfold scatter_, fill_, map_data2. cbn. fold filled. rewrite Hsc. cbn.
  unfold set_column. cbn. rewrite py_index_nonneg by lia. cbn.
  unfold index_fill_, map_data2. cbn.
  rewrite bool_decide_eq_true_2 by (by apply padding_mask_in_range).
  cbn. eexists. split; [reflexivity|]. cbn. split; [reflexivity|].
  assert (forall i, i < t2_size0 x ->
            exists r, t2_data x !! i = Some r /\ length r = t2_size1 x /\
                      filled !! i = Some ((fun _ => v) <$> r)) as Hrow.
  { intros i Hi. destruct (lookup_lt_is_Some_2 (t2_data x) i) as [r Hr]; [lia|].
    exists r. split; [done|]. split.
    - eapply Forall_lookup_1 in Hrows; [exact Hrows|exact Hr].
    - unfold filled. by rewrite list_lookup_fmap, Hr. }
  split.
  - intros i j t Hi Hj. unfold get2, get_rows. cbn.
    destruct (Hrow i) as (r & Hr & Hlr & Hfr); [apply lookup_lt_Some in Hi; lia|].
    rewrite list_lookup_imap, list_lookup_fmap, (Hget1 _ _ Hfr), Hi. cbn.
    unfold smoothed_entry.
    assert (0 <= t < size self)%Z as Ht by (eapply Forall_lookup_1 in Htgt; eauto).
    assert (((fun _ => v) <$> r) !! j = Some v) as Hfill.
    { rewrite list_lookup_fmap. destruct (lookup_lt_is_Some_2 r j) as [y ->]; [lia|done]. }
    pose proof (lookup_insert_total _ (Z.to_nat t) (confidence self) _ _ Hfill) as Hsct.
    pose proof (lookup_insert_total _ (Z.to_nat (padding_idx self)) fzero _ _ Hsct) as Hcol.
    destruct (decide (t = padding_idx self)) as [->|Hnp].
    + rewrite (bool_decide_eq_true_2 (i ∈ _)) by (by apply elem_of_padding_mask).
      rewrite bool_decide_eq_true_2 by done.
      rewrite list_lookup_fmap, Hcol. done.
    + rewrite (bool_decide_eq_false_2 (i ∈ _))
        by (rewrite elem_of_padding_mask, Hi; congruence).
      rewrite (bool_decide_eq_false_2 (t = _)) by done.
      rewrite Hcol. f_equal.
      repeat case_bool_decide; try done; lia.
  - intros i Hi. unfold get2, get_rows. cbn.
    destruct (Hrow i Hi) as (r & Hr & Hlr & Hfr).
    rewrite list_lookup_imap, list_lookup_fmap, (Hget1 _ _ Hfr). cbn.
    set (r1 := match target !! i with
               | Some k => <[Z.to_nat k := confidence self]> ((fun _ => v) <$> r)
               | None => (fun _ => v) <$> r
               end).
    assert (length r1 = t2_size1 x) as Hl.
    { unfold r1. destruct (target !! i); by rewrite ?length_insert, length_fmap. }
    assert (<[Z.to_nat (padding_idx self) := fzero]> r1
              !! Z.to_nat (padding_idx self) = Some fzero) as Hcol
      by (apply list_lookup_insert_eq; lia).
    case_bool_decide; [|exact Hcol].
    by rewrite list_lookup_fmap, Hcol.
Qed.

Lemma forward_raise_assertion (self : LabelSmoothing F) (x : Tensor2 F) (target : list Z) :
  Z.of_nat (t2_size1 x) = size self ->
  forward self x target <> Raise AssertionError.
Proof.
  intros Hsize. unfold forward. rewrite bool_decide_eq_true_2 by done.
  destruct (py_div_int _ _) as [v|e] eqn:Ev; cbn;
    [|apply py_div_int_raise in Ev as [-> _]; done].
  unfold scatter_.
  destruct (scatter_rows _ _ _) as [rows1|e] eqn:Es; cbn;
    [|apply scatter_rows_raise in Es as ->; done].
  unfold set_column. cbn.
  destruct (py_index _ _) as [j|e] eqn:Ej; cbn;
    [|apply py_index_raise in Ej as ->; done].
  unfold index_fill_. case_bool_decide; done.
Qed.

End SmoothingFacts.

Example forward_zero_rows_mismatch :
  Smoothing.forward (Smoothing.init no_divergence 5 0 0.25%float) (mkT2 0 4 []) [] =
  Raise AssertionError.
Proof. reflexivity. Qed.

Example forward_target_out_of_range :
  Smoothing.smoothed (Smoothing.init no_divergence 5 0 0.25%float) x_2x5 [5%Z; 0%Z] =
  Raise RuntimeError.
Proof. vm_compute. reflexivity. Qed.

(** Without smoothing a non-padding row is one-hot at its target. *)
Example smoothed_one_hot :
  Smoothing.smoothed (Smoothing.init no_divergence 5 0 0%float) x_2x5 [2%Z; 0%Z] =
  Ok (mkT2 2 5 [[0; 0; 1; 0; 0]; [0; 0; 0; 0; 0]]%float).
Proof. vm_compute. reflexivity. Qed.



(** C7. [forward] raises [AssertionError] if and only if the class
    dimension of [x] (its size along dimension 1) differs from the
    configured [size]. *)
Theorem C7_assertion_iff_size_mismatch {F : Type} `{Scalar F}
    (self : Smoothing.LabelSmoothing F) (x : Tensor2 F) (target : list Z) :
  Smoothing.forward self x target = Raise AssertionError <->
  Z.of_nat (t2_size1 x) <> Smoothing.size self.
Proof.
  split.
  - intros Hraise Hsize. by apply (forward_raise_assertion self x target).
  - intros Hsize. unfold Smoothing.forward. by rewrite bool_decide_eq_false_2.
Qed.

(** C9. For a [LabelSmoothing] constructed with [size = 2], every call of
    [forward] whose input passes the class-dimension assertion raises
    [ZeroDivisionError], whatever the smoothing coefficient. *)
Theorem C9_size_two_divides_by_zero {F : Type} `{Scalar F}
    (KLDivLoss_sum : Tensor2 F -> Tensor2 F -> F) (padding_idx : Z)
    (smoothing : F) (x : Tensor2 F) (target : list Z) :
  t2_size1 x = 2 ->
  Smoothing.forward (Smoothing.init KLDivLoss_sum 2 padding_idx smoothing)
    x target = Raise ZeroDivisionError.
Proof.
  intros Hx. unfold Smoothing.forward. cbn.
  rewrite bool_decide_eq_true_2 by lia. reflexivity.
Qed.

Lemma C9_size_two_divides_by_zero_witness :
  Smoothing.forward (Smoothing.init no_divergence 2 0 0.25%float)
    x_1x2 [1%Z] = Raise ZeroDivisionError.
Proof.
  apply (C9_size_two_divides_by_zero no_divergence 0 0.25%float x_1x2 [1%Z]).
  reflexivity.
Defined.

(** ** Masks: facts about [subsequent_mask] and [make_std_mask] *)

Section MaskFacts.
Import Masking.

Lemma np_triu_ones_lookup (n i j : nat) (k : Z) :
  i < n -> j < n ->
  get_rows (np_triu k (np_ones n)) i j =
  Some (if bool_decide (Z.of_nat i + k <= Z.of_nat j)%Z then 1%Z else 0%Z).
Proof.
  intros Hi Hj. unfold get_rows, np_triu, np_ones.
  rewrite list_lookup_imap, lookup_replicate_2 by done. cbn.
  rewrite list_lookup_imap, lookup_replicate_2 by done. reflexivity.
Qed.

Lemma np_triu_ones_wf (n : nat) (k : Z) : wf_rows n n (np_triu k (np_ones n)).
Proof.
  unfold wf_rows, np_triu, np_ones. split.
  - by rewrite length_imap, length_replicate.
  - apply Forall_forall. intros row (i & r & -> & Hr)%elem_of_lookup_imap.
    apply lookup_replicate_1 in Hr as [-> _].
    by rewrite length_imap, length_replicate.
Qed.

(** The mask of a non-negative size: its shape and its entries. *)
Lemma subsequent_mask_ok (size : Z) :
  (0 <= size)%Z ->
  exists m,
    subsequent_mask size = Ok m /\
    (t3_size0 m, t3_size1 m, t3_size2 m) = (1, Z.to_nat size, Z.to_nat size) /\
    wf3 m /\
    forall i j, i < Z.to_nat size -> j < Z.to_nat size ->
      get3 m 0 i j = Some (bool_decide (j <= i)).
Proof.
  intros Hsize. unfold subsequent_mask. rewrite bool_decide_eq_false_2 by lia.
  eexists. split; [reflexivity|]. cbn. split; [reflexivity|]. split.
  - split; [reflexivity|]. cbn. constructor; [|constructor].
    destruct (np_triu_ones_wf (Z.to_nat size) 1) as [Hl Hr]. split.
    + by rewrite length_fmap.
    + apply Forall_fmap. eapply Forall_impl; [exact Hr|].
      intros row Hrow. cbn. by rewrite length_fmap.
  - intros i j Hi Hj. unfold get3. cbn.
    pose proof (np_triu_ones_lookup (Z.to_nat size) i j 1 Hi Hj) as Hget.
    unfold get_rows in *. rewrite list_lookup_fmap.
    destruct (np_triu 1 (np_ones (Z.to_nat size)) !! i) as [row|]; cbn in *; [|done].
    rewrite list_lookup_fmap, Hget. cbn. f_equal.
    repeat case_bool_decide; done || lia.
Qed.

Lemma broadcast_dim_one_r (n : nat) : broadcast_dim n 1 = Ok n.
Proof. unfold broadcast_dim. repeat case_bool_decide; congruence. Qed.

Lemma broadcast_dim_one_l (n : nat) : broadcast_dim 1 n = Ok n.
Proof. unfold broadcast_dim. repeat case_bool_decide; congruence. Qed.

Lemma broadcast_dim_same (n : nat) : broadcast_dim n n = Ok n.
Proof. unfold broadcast_dim. by rewrite bool_decide_eq_true_2. Qed.

Lemma broadcast_pos_lt (n i : nat) : i < n -> broadcast_pos n i = i.
Proof. intros Hi. unfold broadcast_pos. case_bool_decide; lia. Qed.

Lemma broadcast_pos_one (i : nat) : broadcast_pos 1 i = 0.
Proof. unfold broadcast_pos. by rewrite bool_decide_eq_true_2. Qed.

(** An entry of [a & b]. *)
Lemma tensor_and_lookup (a b m : Tensor3 bool) (i0 i1 i2 : nat) :
  tensor_and a b = Ok m ->
  i0 < t3_size0 m -> i1 < t3_size1 m -> i2 < t3_size2 m ->
  get3 m i0 i1 i2 = Some (broadcast_get a i0 i1 i2 && broadcast_get b i0 i1 i2).
Proof.
  unfold tensor_and.
  destruct (broadcast_dim (t3_size0 a) (t3_size0 b)) as [d0|]; cbn; [|done].
  destruct (broadcast_dim (t3_size1 a) (t3_size1 b)) as [d1|]; cbn; [|done].
  destruct (broadcast_dim (t3_size2 a) (t3_size2 b)) as [d2|]; cbn; [|done].
  intros [= <-]. cbn. intros H0 H1 H2. unfold get3, get_rows. cbn.
  rewrite list_lookup_fmap, lookup_seq_lt by done. cbn.
  rewrite list_lookup_fmap, lookup_seq_lt by done. cbn.
  rewrite list_lookup_fmap, lookup_seq_lt by done. reflexivity.
Qed.

Section WithScalar.
Context {F : Type} `{Scalar F}.

(** The combined mask of a well-formed target: entry [(b, i, j)] is the
    padding bit of frame [j], computed from the sum of its features, and
    the causal bit of [(i, j)]. *)
Lemma make_std_mask_ok (tgt : Tensor3 F) (pad : Z) :
  wf3 tgt ->
  exists sm m,
    subsequent_mask (Z.of_nat (t3_size1 tgt)) = Ok sm /\
    make_std_mask tgt pad = Ok m /\
    (t3_size0 m, t3_size1 m, t3_size2 m) =
      (t3_size0 tgt, t3_size1 tgt, t3_size1 tgt) /\
    forall b i j frame, i < t3_size1 tgt -> frame_at tgt b j = Some frame ->
      exists causal,
        get3 sm 0 i j = Some causal /\
        causal = bool_decide (j <= i) /\
        get3 m b i j =
          Some (negb (feqb (fsum frame) (of_int pad)) && causal).
Proof.
  intros [Hn Hms].
  destruct (subsequent_mask_ok (Z.of_nat (t3_size1 tgt))) as (sm & Hsm & Hshape & _ & Hget);
    [lia|].
  rewrite Nat2Z.id in Hshape, Hget. injection Hshape as Hs0 Hs1 Hs2.
  unfold make_std_mask. rewrite Hsm. cbn.
  set (pm := mkT3 _ _ _ _).
  destruct (tensor_and pm sm) as [m|e] eqn:Hand.
  2:{ exfalso. revert Hand. unfold tensor_and, pm. cbn.
      rewrite Hs0, Hs1, Hs2, broadcast_dim_one_r, broadcast_dim_one_l,
        broadcast_dim_same. done. }
  assert ((t3_size0 m, t3_size1 m, t3_size2 m) =
          (t3_size0 tgt, t3_size1 tgt, t3_size1 tgt)) as Hm.
  { revert Hand. unfold tensor_and, pm. cbn.
    rewrite Hs0, Hs1, Hs2, broadcast_dim_one_r, broadcast_dim_one_l,
      broadcast_dim_same. cbn. by intros [= <-]. }
  exists sm, m. split; [reflexivity|]. split; [reflexivity|]. split; [exact Hm|].
  injection Hm as Hm0 Hm1 Hm2.
  intros b i j frame Hi Hframe. unfold frame_at in Hframe.
  destruct (t3_data tgt !! b) as [mat|] eqn:Hb; cbn in Hframe; [|done].
  assert (b < t3_size0 tgt) as Hblt by (apply lookup_lt_Some in Hb; lia).
  assert (j < t3_size1 tgt) as Hj.
  { eapply Forall_lookup_1 in Hms; [|exact Hb]. destruct Hms as [Hl _].
    apply lookup_lt_Some in Hframe. lia. }
  exists (bool_decide (j <= i)). split; [by apply Hget|]. split; [reflexivity|].
  rewrite (tensor_and_lookup pm sm m b i j Hand) by lia. f_equal. f_equal.
  - unfold broadcast_get, pm. cbn.
    rewrite broadcast_pos_one, !broadcast_pos_lt by done.
    unfold get3, get_rows. cbn. rewrite list_lookup_fmap, Hb. cbn.
    unfold frame_mask. rewrite list_lookup_fmap, Hframe. reflexivity.
  - unfold broadcast_get. rewrite Hs0, Hs1, Hs2.
    rewrite broadcast_pos_one, !broadcast_pos_lt by done.
    rewrite Hget by done. reflexivity.
Qed.

End WithScalar.
End MaskFacts.

(** C4. For a positive [N], [subsequent_mask N] is a boolean tensor of
    shape [(1, N, N)], a single [N] by [N] matrix, whose entry at
    [(row, column)] is [True] exactly when [column <= row]. *)
Theorem C4_subsequent_mask_lower_triangular (N : Z) :
  (0 < N)%Z ->
  exists m,
    Masking.subsequent_mask N = Ok m /\
    (t3_size0 m, t3_size1 m, t3_size2 m) = (1, Z.to_nat N, Z.to_nat N) /\
    wf3 m /\
    forall row column, row < Z.to_nat N -> column < Z.to_nat N ->
      get3 m 0 row column = Some (bool_decide (column <= row)).
Proof. intros HN. apply subsequent_mask_ok. lia. Qed.

Lemma C4_subsequent_mask_lower_triangular_witness :
  exists m,
    Masking.subsequent_mask 3 = Ok m /\
    (t3_size0 m, t3_size1 m, t3_size2 m) = (1, 3, 3) /\
    wf3 m /\
    forall row column, row < 3 -> column < 3 ->
      get3 m 0 row column = Some (bool_decide (column <= row)).
Proof. apply (C4_subsequent_mask_lower_triangular 3). lia. Defined.

Example subsequent_mask_3 :
  Masking.subsequent_mask 3 =
  Ok (mkT3 1 3 3 [[[true; false; false]; [true; true; false]; [true; true; true]]]).
Proof. reflexivity. Qed.

Example subsequent_mask_negative : Masking.subsequent_mask (-1) = Raise ValueError.
Proof. reflexivity. Qed.

Example make_std_mask_padded :
  Masking.make_std_mask padded_target 0 =
  Ok (mkT3 1 2 2 [[[true; false]; [true; false]]]).
Proof. vm_compute. reflexivity. Qed.

(** C6, as stated, fails on a target of feature vectors: the only frame of
    [cancelling_target] holds the features 1 and -1, neither of them the
    pad token 0, so the mask of the claim marks the position; the code
    compares the sum of the features, 0, with the pad token and leaves
    the position unmarked. *)
Lemma C6_counterexample :
  Masking.make_std_mask cancelling_target 0 = Ok (mkT3 1 1 1 [[[false]]]) /\
  Masking.spec_std_mask cancelling_target 0 = Ok (mkT3 1 1 1 [[[true]]]) /\
  Masking.make_std_mask cancelling_target 0 <>
  Masking.spec_std_mask cancelling_target 0.
Proof.
  assert (Masking.make_std_mask cancelling_target 0 = Ok (mkT3 1 1 1 [[[false]]]))
    as Hcode by (vm_compute; reflexivity).
  assert (Masking.spec_std_mask cancelling_target 0 = Ok (mkT3 1 1 1 [[[true]]]))
    as Hspec by (vm_compute; reflexivity).
  split; [exact Hcode|]. split; [exact Hspec|].
  rewrite Hcode, Hspec. discriminate.
Qed.

(** C6, amended. For a target [tgt] of shape (batch, length, features) and
    a pad value, [make_std_mask tgt pad] is the conjunction of a padding
    mask and the causal mask [subsequent_mask] of the target length, where
    the padding mask marks exactly the positions whose sum of features
    (the sum over the last dimension) is not equal to the pad token: entry
    [(b, i, j)] of the result is the padding bit of frame [j] of sequence
    [b] and the causal bit of [(i, j)]. *)
Theorem C6_make_std_mask {F : Type} `{Scalar F} (tgt : Tensor3 F) (pad : Z) :
  wf3 tgt ->
  exists sm m,
    Masking.subsequent_mask (Z.of_nat (t3_size1 tgt)) = Ok sm /\
    Masking.make_std_mask tgt pad = Ok m /\
    (t3_size0 m, t3_size1 m, t3_size2 m) =
      (t3_size0 tgt, t3_size1 tgt, t3_size1 tgt) /\
    forall b i j frame, i < t3_size1 tgt -> Masking.frame_at tgt b j = Some frame ->
      exists causal,
        get3 sm 0 i j = Some causal /\
        causal = bool_decide (j <= i) /\
        get3 m b i j =
          Some (negb (feqb (fsum frame) (of_int pad)) && causal).
Proof. apply make_std_mask_ok. Qed.

Lemma C6_make_std_mask_witness :
  exists sm m,
    Masking.subsequent_mask 2 = Ok sm /\
    Masking.make_std_mask padded_target 0 = Ok m /\
    (t3_size0 m, t3_size1 m, t3_size2 m) = (1, 2, 2) /\
    forall b i j frame, i < 2 -> Masking.frame_at padded_target b j = Some frame ->
      exists causal,
        get3 sm 0 i j = Some causal /\
        causal = bool_decide (j <= i) /\
        get3 m b i j =
          Some (negb (feqb (fsum frame) (of_int 0)) && causal).
Proof.
  apply (C6_make_std_mask padded_target 0).
  split; [reflexivity|]. repeat constructor.
Defined.

(** ** The synthetic generator: facts about [data_gen] *)

Section DataGenFacts.
Import Masking.
Context {F : Type} `{Scalar F}.

Lemma randint_ok (low high rows cols : Z) (g : rng) :
  (low < high)%Z -> (0 <= rows)%Z -> (0 <= cols)%Z ->
  exists data g',
    randint low high rows cols g = Ok (data, g') /\
    (t2_size0 data, t2_size1 data) = (Z.to_nat rows, Z.to_nat cols) /\
    wf2 data /\
    forall i j, i < Z.to_nat rows -> j < Z.to_nat cols ->
      exists v, get2 data i j = Some v /\ (low <= v < high)%Z.
Proof.
  intros Hlh Hr Hc. unfold randint.
  rewrite bool_decide_eq_false_2, bool_decide_eq_false_2 by lia.
  do 2 eexists. split; [reflexivity|]. cbn. split; [reflexivity|]. split.
  - split; cbn; [by rewrite length_fmap, length_seq|].
    apply Forall_fmap, Forall_forall. intros i _. cbn.
    by rewrite length_fmap, length_seq.
  - intros i j Hi Hj. unfold get2, get_rows. cbn.
    rewrite list_lookup_fmap, lookup_seq_lt by done. cbn.
    rewrite list_lookup_fmap, lookup_seq_lt by done. cbn.
    eexists. split; [reflexivity|].
    pose proof (Z.mod_pos_bound (draws g (cursor g + i * Z.to_nat cols + j))
                  (high - low)). lia.
Qed.

(** The data drawn for a batch: the first column is 1 and every other
    entry lies in [1, V). *)
Lemma copy_task_data_ok (V batch : Z) (g : rng) :
  (1 < V)%Z -> (0 <= batch)%Z ->
  exists data g',
    copy_task_data V batch g = Ok (data, g') /\
    (t2_size0 data, t2_size1 data) = (Z.to_nat batch, 10) /\
    forall i j, i < Z.to_nat batch -> j < 10 ->
      exists v, get2 data i j = Some v /\
                (if bool_decide (j = 0) then v = 1%Z else (1 <= v < V)%Z).
Proof.
  intros HV Hb. unfold copy_task_data.
  destruct (randint_ok 1 V batch 10 g) as (data & g' & -> & Hshape & [Hn Hrows] & Hget);
    [lia..|].
  injection Hshape as Hs0 Hs1. cbn. unfold set_column. rewrite Hs1. cbn.
  do 2 eexists. split; [reflexivity|]. cbn. split; [by rewrite Hs0, Hs1|].
  intros i j Hi Hj. destruct (Hget i j Hi) as (v & Hv & Hrange); [by cbn|].
  unfold get2, get_rows in *. cbn. rewrite list_lookup_fmap.
  destruct (t2_data data !! i) as [row|]; cbn in *; [|done].
  rewrite (lookup_insert_total row (Z.to_nat 0) 1%Z j v Hv).
  eexists. split; [reflexivity|].
  repeat case_bool_decide; done || lia.
Qed.

(** A tensor passed as [trg_set] stops [Batch.__init__] at [trg_set['trg']]. *)
Lemma Batch_init_tensor_target (src tgt : Tensor2 Z) (pad : Z) :
  Batch_init (F := F) src (Some (PyIntTensor tgt)) pad = Raise IndexError.
Proof. reflexivity. Qed.

Lemma data_gen_body_raises (V batch : Z) (g : rng) :
  (1 < V)%Z -> (0 <= batch)%Z ->
  data_gen_body (F := F) V batch g = Raise IndexError.
Proof.
  intros HV Hb. unfold data_gen_body.
  destruct (copy_task_data_ok V batch g) as (data & g' & -> & _); done.
Qed.

End DataGenFacts.

Example data_gen_none_asked :
  Masking.data_gen (F := float) 11 30 0 "cpu" counting_rng = ([], None).
Proof. reflexivity. Qed.

Example copy_task_data_empty_range :
  Masking.copy_task_data 1 30 counting_rng = Raise ValueError.
Proof. reflexivity. Qed.

(** The sibling generator passes a dictionary and does yield its batch. *)
Example data_gen_tt2_yields :
  exists b, Masking.data_gen_tt2 (Vocab := unit) sample_hp
              (Masking.mkTT2Data [sample_labels] [padded_target] [sample_stop_loss] None)
              "cpu" = ([b], None).
Proof. eexists. vm_compute. reflexivity. Qed.

(** C3. The code departs from the claim: [data_gen] hands the data tensor
    itself to [Batch] as [trg_set], [Batch.__init__] subscripts it with
    ['trg'], and the first batch is never built. For a vocabulary size
    above 1, a batch size and at least one batch asked for, the generator
    yields no batch and ends with [IndexError]. *)
Theorem C3_data_gen_raises {F : Type} `{Scalar F}
    (V batch nbatches : Z) (device : string) (g : Masking.rng) :
  (1 < V)%Z -> (0 <= batch)%Z -> (0 < nbatches)%Z ->
  Masking.data_gen (F := F) V batch nbatches device g = ([], Some IndexError).
Proof.
  intros HV Hb Hn. unfold Masking.data_gen.
  destruct (Z.to_nat nbatches) as [|n] eqn:En; [lia|]. cbn.
  by rewrite data_gen_body_raises.
Qed.

Lemma C3_data_gen_raises_witness :
  Masking.data_gen (F := float) 11 30 20 "cpu" counting_rng = ([], Some IndexError).
Proof. apply (C3_data_gen_raises 11 30 20 "cpu" counting_rng); lia. Defined.

(** ** Loss computation: facts about the two [__call__] methods *)

Section LossFacts.
Import Loss.
Context {F : Type} `{Scalar F}.

(** Scaling the last time step touches that step and no other. *)
Lemma scale_last_ok (wt : F) (t : Tensor3 F) :
  0 < t3_size1 t ->
  exists scaled,
    scale_last wt t = Ok scaled /\
    (t3_size0 scaled, t3_size1 scaled, t3_size2 scaled) =
      (t3_size0 t, t3_size1 t, t3_size2 t) /\
    forall b i j v, get3 t b i j = Some v ->
      get3 scaled b i j =
      Some (if bool_decide (i = t3_size1 t - 1) then fmul v wt else v).
Proof.
  intros HT. unfold scale_last, py_index.
  rewrite bool_decide_eq_false_2, bool_decide_eq_true_2 by lia. cbn.
  eexists. split; [reflexivity|]. cbn. split; [reflexivity|].
  intros b i j v. unfold get3, get_rows. cbn. rewrite list_lookup_fmap.
  destruct (t3_data t !! b) as [m|]; cbn; [|done].
  replace (Z.to_nat (-1 + Z.of_nat (t3_size1 t))) with (t3_size1 t - 1) by lia.
  case_bool_decide as Hi.
  - subst i. rewrite list_lookup_alter_eq.
    destruct (m !! (t3_size1 t - 1)) as [frame|]; cbn; [|done].
    rewrite list_lookup_fmap. by intros ->.
  - by rewrite list_lookup_alter_ne.
Qed.

Lemma scale_last_empty (wt : F) (t : Tensor3 F) :
  t3_size1 t = 0 -> scale_last wt t = Raise IndexError.
Proof.
  intros HT. unfold scale_last, py_index. rewrite HT.
  rewrite bool_decide_eq_false_2, bool_decide_eq_false_2 by lia. reflexivity.
Qed.

(** The call of [SimpleTT2LossCompute] once the stop loss and the
    criterion have returned. *)
Lemma tt2_call_ok {W M : Type} (hp : hyperparams F) (torch : Autograd F W M)
    (self : SimpleTT2LossCompute F W) (x y stop_x stop_y : Tensor3 F)
    (norm : F) (model : M) (w : W) (raw_stop : Tensor3 F) (c : F) :
  stop self stop_x stop_y = Ok raw_stop ->
  0 < t3_size1 raw_stop ->
  tt2_criterion self x y = Ok c ->
  exists scaled,
    scale_last (positive_stop_weight hp) raw_stop = Ok scaled /\
    (forall b i j v, get3 raw_stop b i j = Some v ->
       get3 scaled b i j =
       Some (if bool_decide (i = t3_size1 raw_stop - 1)
             then fmul v (positive_stop_weight hp) else v)) /\
    let loss := fadd c (fmul (loss_w_stop hp) (mean scaled)) in
    let clipped := clip_grad_norm_ torch model fone (backward torch loss w) in
    SimpleTT2LossCompute_call hp torch self x y stop_x stop_y norm model w =
    match tt2_opt self with
    | None => Ok (fmul loss norm, clipped)
    | Some o =>
        w' ← opt_step o (Some loss) clipped;
        mret (fmul loss norm, zero_grad o w')
    end.
Proof.
  intros Hstop HT Hcrit.
  destruct (scale_last_ok (positive_stop_weight hp) raw_stop HT)
    as (scaled & Hscale & _ & Hget).
  exists scaled. split; [exact Hscale|]. split; [exact Hget|].
  unfold SimpleTT2LossCompute_call. rewrite Hstop. cbn. rewrite Hscale. cbn.
  rewrite Hcrit. cbn. unfold step_and_clear.
  destruct (tt2_opt self) as [o|]; cbn; [|reflexivity].
  destruct (opt_step o _ _); reflexivity.
Qed.

End LossFacts.

(** Over the reals the division and the multiplication by a nonzero
    [norm] cancel. *)
Lemma norm_cancels_real : Loss.norm_cancels R.
Proof.
  intros W M torch self x y norm w c Hnorm Hraw [w' Hstep].
  exists w'. unfold Loss.SimpleLossCompute_call.
  unfold Loss.raw_criterion in Hraw.
  destruct (Loss.view_rows (Loss.generator self x)) as [rows|]; cbn in *; [|done].
  rewrite Hraw. cbn. rewrite Hstep. cbn. do 2 f_equal.
  cbn in Hnorm. field. exact Hnorm.
Qed.



Example binary64_division_rounds :
  fmul (fdiv 1%float 49%float) 49%float = 0x1.fffffffffffffp-1%float.
Proof. vm_compute. reflexivity. Qed.

Example unit_loss_call :
  Loss.SimpleLossCompute_call Loss.recording_torch unit_loss sample_output
    sample_labels 49%float [] =
  Ok (0x1.fffffffffffffp-1%float, [Loss.EvBackward (fdiv 1%float 49%float)]).
Proof. vm_compute. reflexivity. Qed.




(** ** Further properties of the schedule and of [NoamOpt.step] *)

Section NoamStepFacts.
Import Noam.
Local Open Scope R_scope.


(** X2. A wrapper that has not stepped yet cannot report a rate: its counter
    is 0 and [rate()] raises [ZeroDivisionError], whatever the
    hyperparameters. *)
Theorem rate_of_fresh_wrapper_raises (model_size factor warmup : R) (o : Optimizer) :
  rate (init model_size factor warmup o) None = Raise ZeroDivisionError.
Proof.
  unfold rate. cbn.
  destruct (pow_frac model_size (-0.5)) as [m|e] eqn:Hm; cbn.
  - by rewrite pow_frac_zero.
  - unfold pow_frac in Hm. destruct (Rlt_dec 0 model_size); [done|].
    destruct (Req_dec_T model_size 0); congruence.
Qed.

Lemma Rpower_half_peak w : 0 < w -> w * Rpower w (-1.5) = Rpower w (-0.5).
Proof. intros Hw. by rewrite (Rpower_half_split w Hw). Qed.

(** Whatever the step, the minimum of the two branches stays below the
    inverse square root of the warmup. *)
Lemma min_le_peak s w :
  0 < s -> 0 < w ->
  Rmin (Rpower s (-0.5)) (s * Rpower w (-1.5)) <= Rpower w (-0.5).
Proof.
  intros Hs Hw. destruct (Rle_dec s w) as [Hsw|Hws].
  - rewrite min_during_warmup by done. rewrite <- (Rpower_half_peak w Hw).
    apply Rmult_le_compat_r; [left; apply Rpower_pos|done].
  - rewrite min_after_warmup by lra.
    replace (-0.5) with (- (0.5)) by lra. apply Rpower_neg_antitone; lra.
Qed.

(** X3. With positive hyperparameters the rate at a positive step is positive
    and never above [peak_rate], which it reaches at [step = warmup]. *)
Theorem rate_positive_below_peak (self : NoamOpt) (s : R) :
  0 < model_size self -> 0 < factor self -> 0 < warmup self -> 0 < s ->
  exists r,
    rate self (Some s) = Ok (PyFloat r) /\
    0 < r <= peak_rate self /\
    (s = warmup self -> r = peak_rate self).
Proof.
  intros Hm Hf Hw Hs. eexists. split; [by apply rate_pos|]. unfold peak_rate.
  pose proof (Rpower_pos (model_size self) (-0.5)) as Hmp.
  pose proof (Rpower_pos s (-0.5)) as Hsp.
  pose proof (Rpower_pos (warmup self) (-1.5)) as Hwp.
  split; [split|].
  - apply Rmult_lt_0_compat; [done|]. apply Rmult_lt_0_compat; [done|].
    apply Rmin_pos; [done|]. by apply Rmult_lt_0_compat.
  - apply Rmult_le_compat_l; [lra|]. apply Rmult_le_compat_l; [lra|].
    by apply min_le_peak.
  - intros ->. by rewrite min_after_warmup by lra.
Qed.

Lemma rate_pos_counter (self : NoamOpt) :
  0 < model_size self -> 0 < warmup self -> (0 < _step self)%Z ->
  rate self None = Ok (PyFloat (lrate self (_step self))).
Proof.
  intros Hm Hw Hk. assert (0 < IZR (_step self)) by (by apply IZR_lt).
  assert (rate self None = rate self (Some (IZR (_step self)))) as -> by done.
  by rewrite rate_pos.
Qed.

(** What a [step] with a computable rate leaves behind. *)
Lemma step_ok (self : NoamOpt) :
  0 < model_size self -> 0 < warmup self -> (0 <= _step self)%Z ->
  exists self',
    step self = (self', None) /\
    _step self' = (_step self + 1)%Z /\
    _rate self' = PyFloat (lrate self (_step self + 1)) /\
    updates (optimizer self') = S (updates (optimizer self)) /\
    length (param_groups (optimizer self')) =
      length (param_groups (optimizer self)) /\
    (forall i p, param_groups (optimizer self) !! i = Some p ->
       exists p', param_groups (optimizer self') !! i = Some p' /\
                  p' !! "lr" = Some (PyFloat (lrate self (_step self + 1))) /\
                  forall k, k <> "lr" -> p' !! k = p !! k) /\
    (model_size self', factor self', warmup self') =
      (model_size self, factor self, warmup self).
Proof.
  intros Hm Hw Hk. unfold step.
  rewrite rate_pos_counter by (cbn; done || lia). cbn.
  eexists. split; [reflexivity|]. cbn. repeat split.
  - by rewrite length_fmap.
  - intros i p Hp. eexists. rewrite list_lookup_fmap, Hp. cbn.
    split; [reflexivity|]. split; [by rewrite lookup_insert_eq|].
    intros k Hne. by rewrite lookup_insert_ne.
Qed.

(** X4. A successful [step]: the counter goes up by one, the optimizer makes
    one update, every parameter group gets the new rate under ['lr'] and
    keeps its other entries, [_rate] records the rate, and the
    hyperparameters stay. *)
Theorem step_writes_rate (self : NoamOpt) :
  0 < model_size self -> 0 < warmup self -> (0 <= _step self)%Z ->
  exists self',
    step self = (self', None) /\
    _step self' = (_step self + 1)%Z /\
    _rate self' = PyFloat (lrate self (_step self + 1)) /\
    updates (optimizer self') = S (updates (optimizer self)) /\
    length (param_groups (optimizer self')) =
      length (param_groups (optimizer self)) /\
    (forall i p, param_groups (optimizer self) !! i = Some p ->
       exists p', param_groups (optimizer self') !! i = Some p' /\
                  p' !! "lr" = Some (PyFloat (lrate self (_step self + 1))) /\
                  forall k, k <> "lr" -> p' !! k = p !! k) /\
    (model_size self', factor self', warmup self') =
      (model_size self, factor self, warmup self).
Proof. apply step_ok. Qed.

(** X5. A [step] whose rate cannot be computed (model size or warmup zero)
    ends with [ZeroDivisionError] after advancing the counter: the
    learning rates are not written and the optimizer makes no update. *)
Theorem step_raises_after_counting (self : NoamOpt) :
  model_size self = 0 \/ warmup self = 0 -> (0 <= _step self)%Z ->
  step self =
  ({| optimizer := optimizer self; _step := (_step self + 1)%Z;
      warmup := warmup self; factor := factor self;
      model_size := model_size self; _rate := _rate self |},
   Some ZeroDivisionError).
Proof.
  intros Hzero Hk. unfold step.
  assert (0 < IZR (_step self + 1)) as Hs by (apply IZR_lt; lia).
  assert (rate {| optimizer := optimizer self; _step := (_step self + 1)%Z;
                  warmup := warmup self; factor := factor self;
                  model_size := model_size self; _rate := _rate self |} None =
          Raise ZeroDivisionError) as ->; [|done].
  unfold rate. cbn.
  destruct (Req_dec_T (model_size self) 0) as [->|Hm].
  { by rewrite pow_frac_zero. }
  destruct Hzero as [?|Hw]; [done|]. rewrite Hw, (pow_frac_zero (-1.5)).
  rewrite (pow_frac_pos (IZR (_step self + 1))) by done.
  unfold pow_frac. destruct (Rlt_dec 0 (model_size self)); cbn; [done|].
  by destruct (Req_dec_T (model_size self) 0).
Qed.

Lemma lrate_same_hyperparameters (a b : NoamOpt) (k : Z) :
  (model_size a, factor a, warmup a) = (model_size b, factor b, warmup b) ->
  lrate a k = lrate b k.
Proof. intros [= Hm Hf Hw]. unfold lrate. by rewrite Hm, Hf, Hw. Qed.

(** X6. [n + 1] steps in a row all succeed; they leave the counter and the
    number of optimizer updates [n + 1] higher, and the rate of the last
    counter value in [_rate] and in every parameter group. *)
Theorem steps_accumulate (n : nat) (self : NoamOpt) :
  0 < model_size self -> 0 < warmup self -> (0 <= _step self)%Z ->
  exists self',
    steps (S n) self = (self', None) /\
    _step self' = (_step self + Z.of_nat (S n))%Z /\
    updates (optimizer self') = (updates (optimizer self) + S n)%nat /\
    _rate self' = PyFloat (lrate self (_step self')) /\
    Forall (fun p => p !! "lr" = Some (PyFloat (lrate self (_step self'))))
           (param_groups (optimizer self')).
Proof.
  revert self. induction n as [|n IH]; intros self Hm Hw Hk.
  - destruct (step_ok self Hm Hw Hk)
      as (self' & Hstep & Hc & Hr & Hu & Hl & Hg & _).
    exists self'. cbn. rewrite Hstep, Hc, Hr, Hu. repeat split; [lia|].
    apply Forall_lookup. intros i p' Hp'.
    destruct (lookup_lt_is_Some_2 (param_groups (optimizer self)) i) as [p Hp].
    { rewrite <- Hl. by apply lookup_lt_Some in Hp'. }
    destruct (Hg i p Hp) as (q & Hq & Hlr & _). congruence.
  - destruct (step_ok self Hm Hw Hk)
      as (self1 & Hstep & Hc & _ & Hu & _ & _ & Hhp).
    pose proof Hhp as [= Hm1 Hf1 Hw1].
    destruct (IH self1) as (self' & Hsteps & Hc' & Hu' & Hr' & Hg');
      [by rewrite Hm1|by rewrite Hw1|lia|].
    exists self'. change (steps (S (S n)) self)
      with (match step self with
            | (s', None) => steps (S n) s'
            | (s', Some e) => (s', Some e)
            end).
    rewrite Hstep, Hsteps. rewrite (lrate_same_hyperparameters self1 self) in Hr', Hg' by done.
    repeat split; [lia|lia|done|done].
Qed.

End NoamStepFacts.

(** The standard wrapper over an optimizer with two parameter groups. *)
Lemma step_writes_rate_witness :
  exists self',
    Noam.step std_opt_two_groups = (self', None) /\
    Noam._step self' = 1%Z /\
    Noam._rate self' = Noam.PyFloat (Noam.lrate std_opt_two_groups 1) /\
    Noam.updates (Noam.optimizer self') = 1 /\
    length (Noam.param_groups (Noam.optimizer self')) = 2 /\
    (forall i p, Noam.param_groups (Noam.optimizer std_opt_two_groups) !! i = Some p ->
       exists p', Noam.param_groups (Noam.optimizer self') !! i = Some p' /\
                  p' !! "lr" = Some (Noam.PyFloat (Noam.lrate std_opt_two_groups 1)) /\
                  forall k, k <> "lr" -> p' !! k = p !! k) /\
    (Noam.model_size self', Noam.factor self', Noam.warmup self') = (512, 2, 4000)%R.
Proof.
  apply (step_writes_rate std_opt_two_groups); cbn; lra || lia.
Defined.

Lemma rate_positive_below_peak_witness :
  exists r,
    Noam.rate std_opt_two_groups (Some 4000%R) = Ok (Noam.PyFloat r) /\
    (0 < r <= Noam.peak_rate std_opt_two_groups)%R /\
    (4000%R = Noam.warmup std_opt_two_groups -> r = Noam.peak_rate std_opt_two_groups).
Proof. apply (rate_positive_below_peak std_opt_two_groups 4000%R); cbn; lra. Defined.

Lemma step_raises_after_counting_witness :
  Noam.step zero_warmup_opt =
  ({| Noam.optimizer := Noam.optimizer zero_warmup_opt; Noam._step := 1;
      Noam.warmup := 0; Noam.factor := 2; Noam.model_size := 512;
      Noam._rate := Noam.PyFloat 0 |},
   Some ZeroDivisionError).
Proof.
  apply (step_raises_after_counting zero_warmup_opt); [by right|cbn; lia].
Defined.

Lemma steps_accumulate_witness :
  exists self',
    Noam.steps 3 std_opt_two_groups = (self', None) /\
    Noam._step self' = 3%Z /\
    Noam.updates (Noam.optimizer self') = 3 /\
    Noam._rate self' = Noam.PyFloat (Noam.lrate std_opt_two_groups (Noam._step self')) /\
    Forall (fun p => p !! "lr" =
                     Some (Noam.PyFloat (Noam.lrate std_opt_two_groups (Noam._step self'))))
           (Noam.param_groups (Noam.optimizer self')).
Proof. apply (steps_accumulate 2 std_opt_two_groups); cbn; lra || lia. Defined.

(** ** Properties of [CustomAdam.step] *)

Section AdamFacts.
Import Adam.
Context {S L : Type}.
Context (sched_step : option L -> S -> Noam.Optimizer -> S * Noam.Optimizer).

Lemma read_rates_all (groups : list (gmap string Noam.pynum)) (rate : Noam.pynum) :
  Forall (fun p => is_Some (p !! "lr")) groups ->
  read_rates groups rate = (default rate (last_lr groups), None).
Proof.
  revert rate. induction groups as [|p groups IH]; intros rate Hall; [done|].
  apply Forall_cons in Hall as [[r Hr] Hall]. cbn. rewrite Hr, (IH r Hall).
  f_equal. unfold last_lr. rewrite last_cons.
  destruct (last groups) as [z|] eqn:Hz; cbn; [|by rewrite Hr].
  apply last_Some_elem_of in Hz.
  eapply Forall_forall in Hall as [x Hx]; [|exact Hz]. by rewrite Hx.
Qed.

(** A group without ['lr'] stops the loop with [KeyError]; [_rate] then
    holds the rate of the group before it. *)
Lemma read_rates_missing (pre post : list (gmap string Noam.pynum))
    (p : gmap string Noam.pynum) (rate : Noam.pynum) :
  Forall (fun q => is_Some (q !! "lr")) pre ->
  p !! "lr" = None ->
  read_rates (pre ++ p :: post) rate = (default rate (last_lr pre), Some KeyError).
Proof.
  revert rate. induction pre as [|q pre IH]; intros rate Hall Hp; cbn.
  - by rewrite Hp.
  - apply Forall_cons in Hall as [[r Hr] Hall]. rewrite Hr, (IH r Hall Hp).
    f_equal. unfold last_lr. rewrite last_cons.
    destruct (last pre) as [z|] eqn:Hz; cbn; [|by rewrite Hr].
    apply last_Some_elem_of in Hz.
    eapply Forall_forall in Hall as [x Hx]; [|exact Hz]. by rewrite Hx.
Qed.

(** X7. [CustomAdam.step] over parameter groups that all carry ['lr']: the
    counter goes up by one, [_rate] records the rate of the last group as
    it stood before the update (its old value when there is no group), the
    optimizer makes one update, and only then is the scheduler, if any,
    stepped with the loss: what the scheduler writes is not in [_rate]. *)
Theorem custom_adam_step_records_rate (self : CustomAdam S) (loss : option L) :
  Forall (fun p => is_Some (p !! "lr")) (Noam.param_groups (optimizer self)) ->
  exists self',
    step sched_step self loss = (self', None) /\
    _step self' = (_step self + 1)%Z /\
    _rate self' =
      default (_rate self) (last_lr (Noam.param_groups (optimizer self))) /\
    match scheduler self with
    | None =>
        scheduler self' = None /\
        optimizer self' = Noam.optimizer_step (optimizer self)
    | Some sch =>
        (Some (sched_step loss sch (Noam.optimizer_step (optimizer self))).1,
         (sched_step loss sch (Noam.optimizer_step (optimizer self))).2) =
        (scheduler self', optimizer self')
    end.
Proof.
  intros Hall. unfold step. rewrite (read_rates_all _ _ Hall).
  destruct (scheduler self) as [sch|]; [|by eexists].
  destruct (sched_step loss sch _) as [sch' o']. by eexists.
Qed.

(** X8. A parameter group without ['lr'] ends [CustomAdam.step] with
    [KeyError]: the counter has gone up, the optimizer has made no update
    and the scheduler has not been stepped. *)
Theorem custom_adam_step_missing_lr (self : CustomAdam S) (loss : option L)
    (pre post : list (gmap string Noam.pynum)) (p : gmap string Noam.pynum) :
  Noam.param_groups (optimizer self) = pre ++ p :: post ->
  Forall (fun q => is_Some (q !! "lr")) pre ->
  p !! "lr" = None ->
  step sched_step self loss =
  ({| optimizer := optimizer self; scheduler := scheduler self;
      _step := (_step self + 1)%Z;
      _rate := default (_rate self) (last_lr pre) |},
   Some KeyError).
Proof.
  intros Hgroups Hall Hp. unfold step.
  by rewrite Hgroups, (read_rates_missing _ _ _ _ Hall Hp).
Qed.

End AdamFacts.

Lemma custom_adam_step_records_rate_witness :
  exists self',
    Adam.step halving_scheduler adam_two_groups (Some 1%R) = (self', None) /\
    Adam._step self' = 1%Z /\
    Adam._rate self' = Noam.PyFloat 2 /\
    (Some (halving_scheduler (Some 1%R) ()
             (Noam.optimizer_step (Adam.optimizer adam_two_groups))).1,
     (halving_scheduler (Some 1%R) ()
        (Noam.optimizer_step (Adam.optimizer adam_two_groups))).2) =
    (Adam.scheduler self', Adam.optimizer self').
Proof.
  apply (custom_adam_step_records_rate halving_scheduler adam_two_groups (Some 1%R)).
  repeat constructor; by eexists.
Defined.

Lemma custom_adam_step_missing_lr_witness :
  Adam.step halving_scheduler adam_missing_lr None =
  ({| Adam.optimizer := Adam.optimizer adam_missing_lr; Adam.scheduler := Some ();
      Adam._step := 1; Adam._rate := Noam.PyFloat 1 |},
   Some KeyError).
Proof.
  refine (custom_adam_step_missing_lr halving_scheduler adam_missing_lr None
            [ {["lr" := Noam.PyFloat 1]} ] [ {["lr" := Noam.PyFloat 3]} ]
            {["eps" := Noam.PyFloat 2]} _ _ _).
  - reflexivity.
  - repeat constructor; by eexists.
  - reflexivity.
Defined.

(** ** Further properties of [LabelSmoothing.forward] *)

Section SmoothingMore.
Import Smoothing.
Context {F : Type} `{Scalar F}.

Lemma py_index_wrap (n : nat) (k : Z) :
  (- Z.of_nat n <= k < Z.of_nat n)%Z ->
  py_index n k = Ok (wrap_index n k) /\ wrap_index n k < n.
Proof.
  intros Hk. unfold py_index, wrap_index.
  repeat case_bool_decide; try lia; (split; [done|lia]).
Qed.

Lemma py_index_Ok (n : nat) (k : Z) (j : nat) :
  py_index n k = Ok j -> (- Z.of_nat n <= k < Z.of_nat n)%Z.
Proof. unfold py_index. repeat case_bool_decide; intros [=]; lia. Qed.

(** What a successful scatter says about its index. *)
Lemma scatter_rows_inv (m : nat) (rows rows' : list (list F)) (index : list Z) (v : F) :
  Forall (fun r => length r = m) rows ->
  scatter_rows rows index v = Ok rows' ->
  length index <= length rows /\
  Forall (fun k => (0 <= k < Z.of_nat m)%Z) index.
Proof.
  revert rows rows'. induction index as [|k index IH]; intros rows rows' Hrows; cbn.
  - intros _. split; [lia|constructor].
  - destruct rows as [|r rows]; [done|].
    apply Forall_cons in Hrows as [Hr Hrows].
    case_bool_decide as Hk; [|done].
    destruct (scatter_rows rows index v) as [rest|] eqn:Hrest; cbn; [|done].
    intros _. destruct (IH rows rest Hrows Hrest) as [Hl Hall].
    split; [cbn; lia|]. constructor; [lia|done].
Qed.

Lemma fill_rows_replicate (v : F) (x : Tensor2 F) :
  wf2 x ->
  fill_ v x = mkT2 (t2_size0 x) (t2_size1 x)
                (replicate (t2_size0 x) (replicate (t2_size1 x) v)).
Proof.
  intros [Hn Hrows]. unfold fill_, map_data2. f_equal. rewrite <- Hn.
  apply const_fmap. intros i r Hr.
  eapply Forall_lookup_1 in Hrows; [|exact Hr]. cbn in Hrows. rewrite <- Hrows.
  by apply const_fmap.
Qed.

(** The distribution [forward] builds, row by row. *)
Lemma forward_rows (self : LabelSmoothing F) (x : Tensor2 F) (target : list Z) :
  wf2 x -> forward_defined self x target ->
  let td := mkT2 (t2_size0 x) (t2_size1 x)
              ((fun i : nat => smoothed_row self (t2_size1 x) (target !! i))
                 <$> seq 0 (t2_size0 x)) in
  forward self x target =
  Ok ({| criterion := criterion self; padding_idx := padding_idx self;
         confidence := confidence self; smoothing := smoothing self;
         size := size self; true_dist := Some td |},
      criterion self x td).
Proof.
  intros Hwf (Hsize & Hne & Hlen & Htgt & Hpad) td. unfold forward.
  rewrite bool_decide_eq_true_2 by done.
  unfold py_div_int. rewrite bool_decide_eq_false_2 by lia. cbn.
  set (v := fdiv (smoothing self) (of_int (size self - 2))).
  rewrite (fill_rows_replicate v x Hwf).
  set (n := t2_size0 x) in *. set (m := t2_size1 x) in *.
  destruct (scatter_rows_ok m (replicate n (replicate m v)) target (confidence self))
    as (rows1 & Hsc & Hl1 & Hget1).
  { by rewrite length_replicate. }
  { apply Forall_forall. intros r Hr%elem_of_replicate. destruct Hr as [-> _].
    by rewrite length_replicate. }
  { by rewrite Hsize. }
  unfold scatter_. cbn. rewrite Hsc. cbn. unfold set_column. cbn.
  destruct (py_index_wrap m (padding_idx self)) as [-> Hp]; [lia|]. cbn.
  unfold index_fill_, map_data2. cbn.
  rewrite bool_decide_eq_true_2 by (by apply padding_mask_in_range). cbn.
  assert (imap (fun (i : nat) (r : list F) =>
                  if bool_decide
                       (i ∈ nonzero ((fun t : Z => bool_decide (t = padding_idx self))
                                       <$> target))
                  then (fun _ : F => fzero) <$> r else r)
               ((fun r : list F => <[wrap_index m (padding_idx self) := fzero]> r)
                  <$> rows1) = t2_data td) as ->; [|done].
  unfold td. cbn. apply list_eq. intros i.
  rewrite list_lookup_imap, !list_lookup_fmap.
  rewrite length_replicate in Hl1.
  destruct (decide (i < n)) as [Hi|Hi].
  - rewrite lookup_seq_lt by done. cbn.
    rewrite (Hget1 i (replicate m v)) by (by apply lookup_replicate_2). cbn.
    f_equal. unfold smoothed_row. fold v.
    rewrite (bool_decide_ext _ (target !! i = Some (padding_idx self)))
      by apply elem_of_padding_mask.
    case_bool_decide; [|done].
    rewrite (const_fmap _ _ fzero) by done.
    rewrite length_insert. destruct (target !! i); by rewrite ?length_insert, length_replicate.
  - rewrite lookup_seq_ge by lia.
    by rewrite (lookup_ge_None_2 rows1) by lia.
Qed.

(** X9. On a well-formed input, [forward] returns exactly when the class
    dimension is [size], [size] is not 2, there are no more targets than
    rows, every target is a class, and [padding_idx] is a valid column
    index, negative ones included. *)
Theorem forward_returns_iff (self : LabelSmoothing F) (x : Tensor2 F) (target : list Z) :
  wf2 x ->
  (exists r, forward self x target = Ok r) <-> forward_defined self x target.
Proof.
  intros Hwf. split.
  - intros [r Hr]. unfold forward in Hr.
    case_bool_decide as Hsize; [|done].
    unfold py_div_int in Hr. case_bool_decide as Hne; [done|]. cbn in Hr.
    rewrite (fill_rows_replicate _ x Hwf) in Hr. unfold scatter_ in Hr. cbn in Hr.
    destruct (scatter_rows _ _ _) as [rows1|] eqn:Hsc; [|done]. cbn in Hr.
    unfold set_column in Hr. cbn in Hr.
    destruct (py_index _ _) as [j|] eqn:Hj; [|done].
    apply py_index_Ok in Hj.
    apply (scatter_rows_inv (t2_size1 x)) in Hsc as [Hl Hall].
    2:{ apply Forall_forall. intros r' Hr'%elem_of_replicate. destruct Hr' as [-> _].
        by rewrite length_replicate. }
    rewrite length_replicate in Hl. rewrite Hsize in Hall, Hj.
    repeat split; done || lia.
  - intros Hdef. eexists. by apply forward_rows.
Qed.

(** X10. The distribution depends on the shape of the predictions only, not
    on their values. *)
Theorem smoothed_ignores_predictions (self : LabelSmoothing F) (x x' : Tensor2 F)
    (target : list Z) :
  wf2 x -> wf2 x' ->
  (t2_size0 x, t2_size1 x) = (t2_size0 x', t2_size1 x') ->
  smoothed self x target = smoothed self x' target.
Proof.
  intros Hwf Hwf' [= H0 H1]. unfold smoothed, forward. rewrite H1.
  case_bool_decide; [|done].
  destruct (py_div_int _ _) as [v|]; cbn; [|done].
  rewrite (fill_rows_replicate v x Hwf), (fill_rows_replicate v x' Hwf'), H0, H1.
  destruct (scatter_ _ _ _) as [td1|]; cbn; [|done].
  destruct (set_column _ _ _) as [td2|]; cbn; [|done].
  destruct (index_fill_ _ _ _) as [td3|]; cbn; done.
Qed.

(** X11. With a negative [padding_idx] no row is blanked, and the column it
    names from the end is zeroed in every row, also where it is the
    target class: that row loses its confidence entry. *)
Theorem negative_padding_idx_zeroes_a_class (self : LabelSmoothing F)
    (x : Tensor2 F) (target : list Z) :
  wf2 x -> forward_defined self x target -> (padding_idx self < 0)%Z ->
  exists td,
    smoothed self x target = Ok td /\
    forall i j t, target !! i = Some t -> j < t2_size1 x ->
      get2 td i j =
      Some (if bool_decide (Z.of_nat j = size self + padding_idx self)%Z then fzero
            else if bool_decide (Z.of_nat j = t) then confidence self
            else fdiv (smoothing self) (of_int (size self - 2))).
Proof.
  intros Hwf Hdef Hneg. pose proof Hdef as (Hsize & _ & Hlen & Htgt & Hpad).
  eexists. split.
  { unfold smoothed. by rewrite (forward_rows self x target Hwf Hdef). }
  intros i j t Hi Hj. unfold get2, get_rows. cbn.
  assert (i < t2_size0 x) by (apply lookup_lt_Some in Hi; lia).
  assert (0 <= t < size self)%Z as Ht by (eapply Forall_lookup_1 in Htgt; eauto).
  rewrite list_lookup_fmap, lookup_seq_lt by done. cbn.
  unfold smoothed_row. rewrite Hi.
  rewrite bool_decide_eq_false_2 by (intros [= ->]; lia).
  set (v := fdiv _ _).
  pose proof (lookup_replicate_2 (t2_size1 x) v j Hj) as Hfill.
  pose proof (lookup_insert_total _ (Z.to_nat t) (confidence self) _ _ Hfill) as Hsct.
  rewrite (lookup_insert_total _ _ fzero _ _ Hsct). f_equal.
  unfold wrap_index. rewrite (bool_decide_eq_true_2 (padding_idx self < 0)%Z) by done.
  repeat case_bool_decide; done || lia.
Qed.

End SmoothingMore.

Lemma forward_returns_iff_witness :
  (exists r, Smoothing.forward (Smoothing.init no_divergence 5 (-1) 0.25%float)
               x_2x5 [2%Z; 4%Z] = Ok r) <->
  Smoothing.forward_defined (Smoothing.init no_divergence 5 (-1) 0.25%float)
    x_2x5 [2%Z; 4%Z].
Proof.
  apply (forward_returns_iff (Smoothing.init no_divergence 5 (-1) 0.25%float)
           x_2x5 [2%Z; 4%Z]).
  split; [reflexivity|]. repeat constructor.
Defined.

Lemma smoothed_ignores_predictions_witness :
  Smoothing.smoothed (Smoothing.init no_divergence 5 0 0.25%float) x_2x5 [2%Z; 0%Z] =
  Smoothing.smoothed (Smoothing.init no_divergence 5 0 0.25%float) x_2x5_other [2%Z; 0%Z].
Proof.
  apply (smoothed_ignores_predictions (Smoothing.init no_divergence 5 0 0.25%float)
           x_2x5 x_2x5_other [2%Z; 0%Z]).
  - split; [reflexivity|]. repeat constructor.
  - split; [reflexivity|]. repeat constructor.
  - reflexivity.
Defined.

Lemma negative_padding_idx_zeroes_a_class_witness :
  exists td,
    Smoothing.smoothed (Smoothing.init no_divergence 5 (-1) 0.25%float)
      x_2x5 [2%Z; 4%Z] = Ok td /\
    forall i j t, [2%Z; 4%Z] !! i = Some t -> j < 5 ->
      get2 td i j =
      Some (if bool_decide (Z.of_nat j = 5 + -1)%Z then fzero
            else if bool_decide (Z.of_nat j = t) then fsub fone 0.25%float
            else fdiv 0.25%float (of_int (5 - 2))).
Proof.
  apply (negative_padding_idx_zeroes_a_class
           (Smoothing.init no_divergence 5 (-1) 0.25%float) x_2x5 [2%Z; 4%Z]).
  - split; [reflexivity|]. repeat constructor.
  - repeat split; cbn; try lia. repeat constructor; lia.
  - cbn. lia.
Defined.

(** ** Label smoothing in exact arithmetic *)

Section SmoothingReal.
Import Smoothing.
Local Open Scope R_scope.

Lemma foldl_Rplus_acc (acc : R) (l : list R) :
  foldl Rplus acc l = acc + foldl Rplus 0 l.
Proof.
  revert acc. induction l as [|x l IH]; intros acc; cbn; [lra|].
  rewrite (IH (acc + x)), (IH (0 + x)). lra.
Qed.

Lemma fsum_real_cons (x : R) (l : list R) : fsum (x :: l) = x + fsum l.
Proof. unfold fsum. cbn. rewrite foldl_Rplus_acc. lra. Qed.

Lemma fsum_real_replicate (n : nat) (v : R) : fsum (replicate n v) = INR n * v.
Proof.
  induction n as [|n IH]; [cbn; lra|].
  change (replicate (S n) v) with (v :: replicate n v).
  rewrite fsum_real_cons, IH, S_INR. lra.
Qed.

Lemma fsum_real_insert (l : list R) (i : nat) (x y : R) :
  l !! i = Some y -> fsum (<[i := x]> l) = fsum l - y + x.
Proof.
  revert i. induction l as [|z l IH]; intros [|i] Hi; try done; cbn in Hi.
  - injection Hi as ->. cbn [insert list_insert]. rewrite !fsum_real_cons. lra.
  - change (<[S i := x]> (z :: l)) with (z :: <[i := x]> l).
    rewrite !fsum_real_cons, (IH i Hi). lra.
Qed.

(** X12. Each row of the smoothed distribution is a probability distribution
    or blank: the row of a non-padding target sums to 1, the row of a
    padding target sums to 0. *)
Theorem smoothed_rows_sum_to_one
    (KLDivLoss_sum : Tensor2 R -> Tensor2 R -> R) (size padding_idx : Z)
    (smoothing : R) (x : Tensor2 R) (target : list Z) :
  wf2 x ->
  Z.of_nat (t2_size1 x) = size ->
  size <> 2%Z ->
  (0 <= padding_idx < size)%Z ->
  (length target <= t2_size0 x)%nat ->
  Forall (fun t => (0 <= t < size)%Z) target ->
  exists td,
    smoothed (init KLDivLoss_sum size padding_idx smoothing) x target = Ok td /\
    forall i t, target !! i = Some t ->
      exists row, t2_data td !! i = Some row /\
                  fsum row = if bool_decide (t = padding_idx) then 0 else 1.
Proof.
  intros Hwf Hsize Hne Hpad Hlen Htgt.
  set (self := init KLDivLoss_sum size padding_idx smoothing).
  assert (forward_defined self x target) as Hdef by (repeat split; done || (cbn; lia)).
  eexists. split.
  { unfold smoothed. by rewrite (forward_rows self x target Hwf Hdef). }
  intros i t Hi. cbn.
  assert (i < t2_size0 x)%nat by (apply lookup_lt_Some in Hi; lia).
  assert (0 <= t < size)%Z as Ht by (eapply Forall_lookup_1 in Htgt; eauto).
  rewrite list_lookup_fmap, lookup_seq_lt by done. cbn.
  eexists. split; [reflexivity|]. unfold smoothed_row. rewrite Hi. cbn.
  set (m := t2_size1 x) in *. set (v := smoothing / IZR (size - 2)).
  destruct (decide (t = padding_idx)) as [->|Hnp].
  - rewrite !bool_decide_eq_true_2 by done.
    rewrite (fsum_real_replicate m 0). lra.
  - rewrite (bool_decide_eq_false_2 (Some t = _)) by congruence.
    rewrite (bool_decide_eq_false_2 (t = _)) by done.
    unfold wrap_index. rewrite bool_decide_eq_false_2 by lia.
    assert (replicate m v !! Z.to_nat t = Some v) as Hfill
      by (apply lookup_replicate_2; lia).
    assert (<[Z.to_nat t := 1 - smoothing]> (replicate m v) !! Z.to_nat padding_idx
            = Some v) as Hsct.
    { rewrite list_lookup_insert_ne by lia. apply lookup_replicate_2. lia. }
    rewrite (fsum_real_insert _ _ _ _ Hsct), (fsum_real_insert _ _ _ _ Hfill),
      fsum_real_replicate.
    assert (IZR (size - 2) = INR m - 2) as Hd.
    { rewrite <- Hsize, minus_IZR, <- INR_IZR_INZ. lra. }
    assert (INR m - 2 <> 0) as Hnz.
    { rewrite <- Hd. apply not_0_IZR. lia. }
    unfold v. rewrite Hd. field. exact Hnz.
Qed.


End SmoothingReal.

Lemma smoothed_rows_sum_to_one_witness :
  exists td,
    Smoothing.smoothed (Smoothing.init no_divergence_real 5 0 0.1%R)
      x_2x5_real [2%Z; 0%Z] = Ok td /\
    forall i t, [2%Z; 0%Z] !! i = Some t ->
      exists row, t2_data td !! i = Some row /\
                  fsum row = if bool_decide (t = 0%Z) then 0%R else 1%R.
Proof.
  apply (smoothed_rows_sum_to_one no_divergence_real 5 0 0.1%R x_2x5_real [2%Z; 0%Z]).
  - split; [reflexivity|]. repeat constructor.
  - reflexivity.
  - lia.
  - lia.
  - cbn. lia.
  - repeat constructor; lia.
Defined.


(** ** Properties of [Batch], [rebatch] and [data_gen_tt2] *)

Section BatchFacts.
Import Masking.
Context {F : Type} `{Scalar F}.

(** The combined mask can be built for every target tensor. *)
Lemma make_std_mask_total (tgt : Tensor3 F) (pad : Z) :
  exists m, make_std_mask tgt pad = Ok m /\
            (t3_size0 m, t3_size1 m, t3_size2 m) =
              (t3_size0 tgt, t3_size1 tgt, t3_size1 tgt).
Proof.
  unfold make_std_mask, subsequent_mask. rewrite bool_decide_eq_false_2 by lia.
  cbn. unfold tensor_and. cbn.
  rewrite Nat2Z.id, broadcast_dim_one_r, broadcast_dim_one_l, broadcast_dim_same.
  cbn. by eexists.
Qed.

(** [Batch.__init__] on a dictionary that holds both keys. *)
Lemma Batch_init_dict (src : Tensor2 Z) (d : gmap string (Tensor3 F)) (pad : Z)
    (trg0 stops0 : Tensor3 F) :
  d !! "trg" = Some trg0 -> d !! "trg_stops" = Some stops0 ->
  exists m tg,
    make_std_mask (drop_last_step trg0) pad = Ok m /\
    trg tg = drop_last_step trg0 /\
    trg_y tg = drop_first_step trg0 /\
    trg_mask tg = m /\
    nframes tg =
      Z.of_nat (length (filter (fun b : bool => b = true)
                  (concat (frame_mask pad <$> t3_data (drop_first_step trg0))))) /\
    trg_stops tg = stops0 /\
    stop_tokens tg = drop_first_step stops0 /\
    Batch_init src (Some (PyDict d)) pad =
      Ok (mkBatch src (src_mask_of src pad) (Some tg)).
Proof.
  intros Htrg Hstops.
  destruct (make_std_mask_total (drop_last_step trg0) pad) as (m & Hm & _).
  exists m. eexists (mkTarget _ _ _ _ _ _). cbn. repeat split; [done|].
  unfold Batch_init, getitem. rewrite Htrg. cbn. rewrite Hm. cbn.
  by rewrite Hstops.
Qed.

Lemma length_concat_uniform {A} (n : nat) (l : list (list A)) :
  Forall (fun m => length m = n) l -> length (concat l) = length l * n.
Proof.
  induction 1 as [|m l Hm _ IH]; [done|]. cbn. rewrite length_app, IH, Hm. lia.
Qed.

(** X14. Given a dictionary, [Batch.__init__] returns exactly when the
    dictionary holds both ['trg'] and ['trg_stops'], whatever the tensors
    under them; otherwise it raises [KeyError]. *)
Theorem Batch_needs_both_keys (src : Tensor2 Z) (d : gmap string (Tensor3 F)) (pad : Z) :
  ((exists b, Batch_init src (Some (PyDict d)) pad = Ok b) <->
   is_Some (d !! "trg") /\ is_Some (d !! "trg_stops")) /\
  (forall e, Batch_init src (Some (PyDict d)) pad = Raise e -> e = KeyError).
Proof.
  destruct (d !! "trg") as [trg0|] eqn:Htrg.
  - destruct (d !! "trg_stops") as [stops0|] eqn:Hstops.
    + destruct (Batch_init_dict src d pad trg0 stops0 Htrg Hstops)
        as (m & tg & _ & _ & _ & _ & _ & _ & _ & ->).
      split; [|done]. split; [by eauto|]. by eexists.
    + assert (Batch_init src (Some (PyDict d)) pad = Raise KeyError) as ->.
      { unfold Batch_init, getitem. rewrite Htrg. cbn.
        destruct (make_std_mask_total (drop_last_step trg0) pad) as (m & -> & _).
        cbn. by rewrite Hstops. }
      split; [|congruence]. split; [by intros [b ?]|]. by intros [_ [? ?]].
  - assert (Batch_init src (Some (PyDict d)) pad = Raise KeyError) as ->.
    { unfold Batch_init, getitem. by rewrite Htrg. }
    split; [|congruence]. split; [by intros [b ?]|]. by intros [[? ?] _].
Qed.

(** X15. The decoder input and the expected output are the target shifted by
    one step: [trg] holds the frames of the given target but the last,
    [trg_y] at step [t] holds the frame of step [t + 1], and the stop
    tokens follow [trg_y]. *)
Theorem Batch_shifts_target (src : Tensor2 Z) (d : gmap string (Tensor3 F)) (pad : Z)
    (trg0 stops0 : Tensor3 F) :
  d !! "trg" = Some trg0 -> d !! "trg_stops" = Some stops0 ->
  exists b tg,
    Batch_init src (Some (PyDict d)) pad = Ok b /\
    target b = Some tg /\
    (t3_size1 (trg tg), t3_size1 (trg_y tg)) =
      (t3_size1 trg0 - 1, t3_size1 trg0 - 1) /\
    (forall k t, t < t3_size1 trg0 - 1 ->
       frame_at (trg tg) k t = frame_at trg0 k t) /\
    (forall k t, frame_at (trg_y tg) k t = frame_at trg0 k (S t)) /\
    (forall k t, frame_at (stop_tokens tg) k t = frame_at stops0 k (S t)).
Proof.
  intros Htrg Hstops.
  destruct (Batch_init_dict src d pad trg0 stops0 Htrg Hstops)
    as (m & tg & _ & Ht & Hy & _ & _ & _ & Hs & ->).
  eexists _, tg. split; [reflexivity|]. split; [reflexivity|].
  rewrite Ht, Hy, Hs. split; [reflexivity|].
  unfold frame_at, drop_last_step, drop_first_step. cbn.
  repeat split; intros k t; rewrite list_lookup_fmap.
  - intros Hlt. destruct (t3_data trg0 !! k); cbn; [|done].
    by rewrite lookup_take_lt.
  - destruct (t3_data trg0 !! k); cbn; [|done]. by rewrite lookup_drop.
  - destruct (t3_data stops0 !! k); cbn; [|done]. by rewrite lookup_drop.
Qed.

(** X16. The frame count of a batch lies between 0 and the number of frames
    of the expected output. *)
Theorem Batch_nframes_bounds (src : Tensor2 Z) (d : gmap string (Tensor3 F)) (pad : Z)
    (trg0 stops0 : Tensor3 F) :
  d !! "trg" = Some trg0 -> d !! "trg_stops" = Some stops0 -> wf3 trg0 ->
  exists b tg,
    Batch_init src (Some (PyDict d)) pad = Ok b /\
    target b = Some tg /\
    (0 <= nframes tg <= Z.of_nat (t3_size0 trg0 * (t3_size1 trg0 - 1)))%Z.
Proof.
  intros Htrg Hstops [Hn Hms].
  destruct (Batch_init_dict src d pad trg0 stops0 Htrg Hstops)
    as (m & tg & _ & _ & _ & _ & Hnf & _ & _ & ->).
  eexists _, tg. split; [reflexivity|]. split; [reflexivity|].
  rewrite Hnf. split; [lia|]. apply inj_le.
  etrans; [apply length_filter|].
  rewrite (length_concat_uniform (t3_size1 trg0 - 1)).
  - unfold drop_first_step. cbn. by rewrite !length_fmap, Hn.
  - unfold drop_first_step. cbn. rewrite <- list_fmap_compose.
    apply Forall_fmap. eapply Forall_impl; [exact Hms|].
    intros mat [Hl _]. cbn. unfold frame_mask.
    rewrite length_fmap, length_drop. lia.
Qed.

(** X17. Whatever the target, a batch that is built keeps the source and
    masks exactly its pad tokens: entry [(i, 0, j)] of [src_mask] tells
    whether token [j] of sequence [i] differs from [pad]. *)
Theorem Batch_src_mask (src : Tensor2 Z) (trg_set : option (pyobj F)) (pad : Z)
    (b : Batch F) :
  Batch_init src trg_set pad = Ok b ->
  Masking.src b = src /\
  (t3_size0 (src_mask b), t3_size1 (src_mask b), t3_size2 (src_mask b)) =
    (t2_size0 src, 1, t2_size1 src) /\
  forall i j v, get2 src i j = Some v ->
    get3 (src_mask b) i 0 j = Some (negb (bool_decide (v = pad))).
Proof.
  intros Hb.
  assert (Masking.src b = src /\ src_mask b = src_mask_of src pad) as [-> ->].
  { unfold Batch_init in Hb. destruct trg_set as [o|]; [|by injection Hb as <-].
    destruct (getitem o "trg") as [trg0|]; cbn in Hb; [|done].
    destruct (make_std_mask _ _) as [m|]; cbn in Hb; [|done].
    destruct (getitem o "trg_stops") as [stops0|]; cbn in Hb; [|done].
    by injection Hb as <-. }
  split; [done|]. split; [done|].
  intros i j v. unfold get2, get3, get_rows, src_mask_of. cbn.
  rewrite list_lookup_fmap. destruct (t2_data src !! i) as [row|]; cbn; [|done].
  rewrite list_lookup_fmap. by intros ->.
Qed.

(** X18. [rebatch] hands [Batch] the transposed target tensor where a
    dictionary is expected: it raises [IndexError] on every batch. *)
Theorem rebatch_raises (pad_idx : Z) (batch : torchtext_batch) :
  rebatch (F := F) pad_idx batch = Raise IndexError.
Proof. reflexivity. Qed.

(** The loop of [data_gen_tt2] never raises: it yields one batch per
    aligned triple, each with the source of its triple and a target built
    from the target and the stop labels of its triple. *)
Lemma data_gen_tt2_loop_ok (hp : hyperparams F) (srcs : list (Tensor2 Z))
    (tgts stops : list (Tensor3 F)) :
  exists bs,
    data_gen_tt2_loop hp srcs tgts stops = (bs, None) /\
    length bs = length srcs `min` (length tgts `min` length stops) /\
    forall i b, bs !! i = Some b ->
      srcs !! i = Some (Masking.src b) /\
      exists tg mel, target b = Some tg /\ tgts !! i = Some mel /\
                     trg tg = drop_last_step mel /\
                     trg_y tg = drop_first_step mel /\
                     stops !! i = Some (trg_stops tg).
Proof.
  revert tgts stops. induction srcs as [|phoneme srcs IH]; intros tgts stops.
  { exists []. by repeat split. }
  destruct tgts as [|mel tgts]; [exists []; repeat split; try done; cbn; lia|].
  destruct stops as [|mel_stops stops]; [exists []; repeat split; try done; cbn; lia|].
  cbn [data_gen_tt2_loop].
  destruct (Batch_init_dict phoneme
              (<["trg" := mel]> (<["trg_stops" := mel_stops]> ∅)) (pad_token hp)
              mel mel_stops) as (m & tg & _ & Ht & Hy & _ & _ & Hs & _ & ->).
  { by rewrite lookup_insert_eq. }
  { rewrite lookup_insert_ne by done. by rewrite lookup_insert_eq. }
  destruct (IH tgts stops) as (bs & -> & Hl & Hbs).
  eexists. split; [reflexivity|]. split; [cbn; lia|].
  intros [|i] b; cbn.
  - intros [= <-]. cbn. split; [done|]. exists tg, mel. by rewrite Hs.
  - apply Hbs.
Qed.

(** X19. data_gen_tt2 never raises: it yields one Batch per aligned (src,
    tgt, tgt_stops) triple, as many as the shortest of the three lists,
    and batch i carries source i and a target built from target i and
    stop labels i. *)
Theorem data_gen_tt2_yields_every_triple {Vocab : Type} (hp : hyperparams F)
    (data : tt2_data F Vocab) (device : string) :
  exists bs,
    data_gen_tt2 hp data device = (bs, None) /\
    length bs = length (data_src data)
                  `min` (length (data_tgt data) `min` length (data_tgt_stops data)) /\
    forall i b, bs !! i = Some b ->
      data_src data !! i = Some (Masking.src b) /\
      exists tg mel, target b = Some tg /\ data_tgt data !! i = Some mel /\
                     trg tg = drop_last_step mel /\
                     trg_y tg = drop_first_step mel /\
                     data_tgt_stops data !! i = Some (trg_stops tg).
Proof. apply data_gen_tt2_loop_ok. Qed.

(** X20. The data [data_gen] draws for a batch: [batch] rows of 10 entries,
    the first column 1 and every other entry in [1, V). *)
Theorem data_gen_draws_copy_task_data (V batch : Z) (g : rng) :
  (1 < V)%Z -> (0 <= batch)%Z ->
  exists data g',
    copy_task_data V batch g = Ok (data, g') /\
    (t2_size0 data, t2_size1 data) = (Z.to_nat batch, 10) /\
    forall i j, i < Z.to_nat batch -> j < 10 ->
      exists v, get2 data i j = Some v /\
                (if bool_decide (j = 0) then v = 1%Z else (1 <= v < V)%Z).
Proof. apply copy_task_data_ok. Qed.

End BatchFacts.

(** ** Properties of [data_prepare_tt2] *)

Section PrepareFacts.
Import Masking.
Context {F : Type} `{Scalar F} {Vocab St : Type}.
Context (get_sample_batch :
           Z -> option Z -> option Vocab -> bool -> St -> sample_batch F Vocab * St).

Lemma sequential_loop_batches (batch_size : Z) (random : bool) (n k : nat) (i : Z)
    (d : tt2_data F Vocab) (st : St) :
  has_batches k d ->
  has_batches (k + n)
    (sequential_loop get_sample_batch batch_size random n i d st).1.
Proof.
  revert k i d st. induction n as [|n IH]; intros k i d st Hd; cbn.
  - by rewrite Nat.add_0_r.
  - destruct (get_sample_batch _ _ _ _ _) as [batch st'].
    replace (k + S n) with (S k + n) by lia. apply IH.
    destruct Hd as (H1 & H2 & H3). unfold has_batches, append_sample. cbn.
    rewrite !length_app. cbn. lia.
Qed.

Lemma repeat_loop_batches (batch_size : Z) (random : bool) (n k : nat)
    (batch : sample_batch F Vocab) (d : tt2_data F Vocab) (st : St) :
  has_batches k d ->
  has_batches (k + n)
    (repeat_loop get_sample_batch batch_size random n batch d st).1.
Proof.
  revert k batch d st. induction n as [|n IH]; intros k batch d st Hd; cbn.
  - by rewrite Nat.add_0_r.
  - destruct Hd as (H1 & H2 & H3). replace (k + S n) with (S k + n) by lia.
    destruct random.
    + destruct (get_sample_batch _ _ _ _ _) as [batch' st']. apply IH.
      unfold has_batches, append_sample. cbn. rewrite !length_app. cbn. lia.
    + apply IH. unfold has_batches, append_only. cbn. rewrite !length_app. cbn. lia.
Qed.

Lemma data_prepare_tt2_batches (batch_size nbatches : Z) (random sequential : bool)
    (st : St) :
  has_batches (prepared_count nbatches sequential)
    (data_prepare_tt2 get_sample_batch batch_size nbatches random sequential st).1.
Proof.
  unfold data_prepare_tt2, prepared_count. destruct sequential.
  - apply (sequential_loop_batches batch_size random (Z.to_nat nbatches) 0). by repeat split.
  - destruct (get_sample_batch _ _ _ _ _) as [batch st'].
    apply (repeat_loop_batches batch_size random (Z.to_nat (nbatches - 1)) 1).
    by repeat split.
Qed.

(** X21. The source, target and stop-label lists that [data_prepare_tt2]
    returns have the same length: [nbatches] (none when it is negative) in
    the sequential branch; in the other branch [nbatches] when it is
    positive, and still one batch when [nbatches] is zero or negative. *)
Theorem data_prepare_tt2_lengths (batch_size nbatches : Z) (random sequential : bool)
    (st : St) :
  let d := (data_prepare_tt2 get_sample_batch batch_size nbatches random sequential st).1 in
  let n := if sequential then Z.to_nat nbatches else Z.to_nat (Z.max nbatches 1) in
  length (data_src d) = n /\ length (data_tgt d) = n /\ length (data_tgt_stops d) = n.
Proof.
  intros d n.
  pose proof (data_prepare_tt2_batches batch_size nbatches random sequential st) as Hd.
  assert (n = prepared_count nbatches sequential) as ->; [|exact Hd].
  unfold n, prepared_count. destruct sequential; lia.
Qed.

Lemma repeat_loop_same (batch_size : Z) (n : nat) (batch : sample_batch F Vocab)
    (d : tt2_data F Vocab) (st : St) :
  repeat_loop get_sample_batch batch_size false n batch d st =
  (mkTT2Data (data_src d ++ replicate n (sample_src batch))
             (data_tgt d ++ replicate n (sample_tgt batch))
             (data_tgt_stops d ++ replicate n (sample_tgt_stops batch))
             (data_vocab d), st).
Proof.
  revert d. induction n as [|n IH]; intros d; cbn.
  - rewrite !app_nil_r. by destruct d.
  - rewrite IH. unfold append_only. cbn. by rewrite <- !app_assoc.
Qed.

(** X22. Without [random] and without [sequential], [data_prepare_tt2] draws a
    single sample and repeats it: every batch is that sample, the
    vocabulary is the one it came with, and the data source has been asked
    once. *)
Theorem data_prepare_tt2_repeats_one_sample (batch_size nbatches : Z) (st : St) :
  let sample := get_sample_batch batch_size None None false st in
  let n := Z.to_nat (Z.max nbatches 1) in
  data_prepare_tt2 get_sample_batch batch_size nbatches false false st =
  (mkTT2Data (replicate n (sample_src sample.1))
             (replicate n (sample_tgt sample.1))
             (replicate n (sample_tgt_stops sample.1))
             (sample_vocab sample.1), sample.2).
Proof.
  intros sample n. unfold data_prepare_tt2. fold sample.
  destruct sample as [batch st']. rewrite repeat_loop_same. cbn.
  replace n with (S (Z.to_nat (nbatches - 1))) by (unfold n; lia). done.
Qed.

Lemma sequential_loop_snoc (batch_size : Z) (random : bool) (n : nat) (i : Z)
    (d : tt2_data F Vocab) (st : St) :
  sequential_loop get_sample_batch batch_size random (S n) i d st =
  let (d', st') := sequential_loop get_sample_batch batch_size random n i d st in
  let (batch, st'') :=
    get_sample_batch batch_size (Some ((i + Z.of_nat n) * batch_size)%Z)
      (data_vocab d') random st' in
  (append_sample d' batch, st'').
Proof.
  revert i d st. induction n as [|n IH]; intros i d st.
  - cbn. by rewrite Z.add_0_r.
  - change (sequential_loop get_sample_batch batch_size random (S (S n)) i d st)
      with (let (batch, st') :=
              get_sample_batch batch_size (Some (i * batch_size)%Z) (data_vocab d)
                random st in
            sequential_loop get_sample_batch batch_size random (S n) (i + 1)%Z
              (append_sample d batch) st').
    cbn [sequential_loop] in *.
    destruct (get_sample_batch batch_size (Some (i * batch_size)%Z) _ _ _)
      as [batch st'].
    specialize (IH (i + 1)%Z (append_sample d batch) st').
    cbn [sequential_loop] in IH. rewrite IH.
    by replace (i + 1 + Z.of_nat n)%Z with (i + Z.of_nat (S n))%Z by lia.
Qed.

(** X23. In the sequential branch one more batch is one more sample at the
    end: preparing [nbatches + 1] batches is preparing [nbatches] and then
    drawing the sample at offset [nbatches * batch_size] with the
    vocabulary of the sample before it. *)
Theorem data_prepare_tt2_sequential_next (batch_size nbatches : Z) (random : bool)
    (st : St) :
  (0 <= nbatches)%Z ->
  data_prepare_tt2 get_sample_batch batch_size (nbatches + 1) random true st =
  let (d, st') := data_prepare_tt2 get_sample_batch batch_size nbatches random true st in
  let (batch, st'') :=
    get_sample_batch batch_size (Some (nbatches * batch_size)%Z) (data_vocab d)
      random st' in
  (append_sample d batch, st'').
Proof.
  intros Hn. unfold data_prepare_tt2.
  replace (Z.to_nat (nbatches + 1)) with (S (Z.to_nat nbatches)) by lia.
  rewrite sequential_loop_snoc.
  by replace (0 + Z.of_nat (Z.to_nat nbatches))%Z with nbatches by lia.
Qed.

(** X24. Fed to [data_gen_tt2], what [data_prepare_tt2] returns yields one
    batch per prepared batch and never raises. *)
Theorem prepared_data_yields_all_batches (hp : hyperparams F)
    (batch_size nbatches : Z) (random sequential : bool) (st : St) (device : string) :
  exists bs,
    data_gen_tt2 hp
      (data_prepare_tt2 get_sample_batch batch_size nbatches random sequential st).1
      device = (bs, None) /\
    length bs = if sequential then Z.to_nat nbatches else Z.to_nat (Z.max nbatches 1).
Proof.
  destruct (data_prepare_tt2_batches batch_size nbatches random sequential st)
    as (H1 & H2 & H3).
  unfold data_gen_tt2.
  destruct (data_gen_tt2_loop_ok hp
              (data_src (data_prepare_tt2 get_sample_batch batch_size nbatches
                           random sequential st).1)
              (data_tgt (data_prepare_tt2 get_sample_batch batch_size nbatches
                           random sequential st).1)
              (data_tgt_stops (data_prepare_tt2 get_sample_batch batch_size nbatches
                                 random sequential st).1))
    as (bs & Hbs & Hl & _).
  exists bs. split; [exact Hbs|]. rewrite Hl, H1, H2, H3.
  unfold prepared_count. destruct sequential; lia.
Qed.

End PrepareFacts.

(** ** Masks over single-feature targets, in exact arithmetic *)

(** X25. On a target with one feature per frame the padding bit is the test
    of that feature against the pad token: entry [(b, i, j)] of the mask
    holds exactly when the value at step [j] is not [pad] and [j <= i]. *)
Theorem single_feature_mask_tests_values (tgt : Tensor3 R) (pad : Z) :
  wf3 tgt ->
  exists m,
    Masking.make_std_mask tgt pad = Ok m /\
    forall b i j v, i < t3_size1 tgt -> Masking.frame_at tgt b j = Some [v] ->
      exists bit, get3 m b i j = Some bit /\
                  (bit = true <-> v <> IZR pad /\ j <= i).
Proof.
  intros Hwf. destruct (make_std_mask_ok tgt pad Hwf) as (sm & m & _ & Hm & _ & Hget).
  exists m. split; [exact Hm|]. intros b i j v Hi Hframe.
  destruct (Hget b i j [v] Hi Hframe) as (causal & _ & -> & ->).
  eexists. split; [reflexivity|]. unfold fsum. cbn. rewrite Rplus_0_l.
  rewrite andb_true_iff, negb_true_iff, bool_decide_eq_true.
  destruct (Req_dec_T v (IZR pad)) as [Heq|Hne]; split; intros [Hv Hji];
    (split; [congruence|exact Hji]).
Qed.

Lemma single_feature_mask_tests_values_witness :
  exists m,
    Masking.make_std_mask single_feature_target 0 = Ok m /\
    forall b i j v, i < 2 -> Masking.frame_at single_feature_target b j = Some [v] ->
      exists bit, get3 m b i j = Some bit /\
                  (bit = true <-> v <> IZR 0 /\ j <= i).
Proof.
  apply (single_feature_mask_tests_values single_feature_target 0).
  split; [reflexivity|]. repeat constructor.
Defined.

(** ** Further properties of [SimpleTT2LossCompute] *)

Section TT2Facts.
Import Loss.
Context {F : Type} `{Scalar F} {W M : Type}.

(** X26. [norm] only scales the scalar that [SimpleTT2LossCompute] returns:
    the loss that is backpropagated and the training state after the call
    are the same for every [norm]. *)
Theorem tt2_state_ignores_norm (hp : hyperparams F) (torch : Autograd F W M)
    (self : SimpleTT2LossCompute F W) (x y stop_x stop_y : Tensor3 F)
    (norm norm' : F) (model : M) (w : W) :
  snd <$> SimpleTT2LossCompute_call hp torch self x y stop_x stop_y norm model w =
  snd <$> SimpleTT2LossCompute_call hp torch self x y stop_x stop_y norm' model w.
Proof.
  unfold SimpleTT2LossCompute_call.
  destruct (stop self stop_x stop_y) as [raw|]; cbn; [|done].
  destruct (scale_last _ raw) as [scaled|]; cbn; [|done].
  destruct (tt2_criterion self x y) as [c|]; cbn; [|done].
  destruct (step_and_clear _ _ _) as [w'|]; cbn; done.
Qed.

(** X27. A stop loss without a time step has no final step to weight: the
    call raises [IndexError] before the criterion is evaluated and before
    any backward pass. *)
Theorem tt2_empty_stop_loss_raises (hp : hyperparams F) (torch : Autograd F W M)
    (self : SimpleTT2LossCompute F W) (x y stop_x stop_y : Tensor3 F)
    (norm : F) (model : M) (w : W) (raw_stop : Tensor3 F) :
  stop self stop_x stop_y = Ok raw_stop ->
  t3_size1 raw_stop = 0 ->
  SimpleTT2LossCompute_call hp torch self x y stop_x stop_y norm model w =
  Raise IndexError.
Proof.
  intros Hstop HT. unfold SimpleTT2LossCompute_call. rewrite Hstop. cbn.
  by rewrite scale_last_empty.
Qed.

End TT2Facts.

Lemma tt2_empty_stop_loss_raises_witness :
  Loss.SimpleTT2LossCompute_call sample_hp Loss.recording_torch empty_tt2
    sample_stop_loss sample_stop_loss empty_stop_loss empty_stop_loss
    1%float () [] = Raise IndexError.
Proof.
  apply (tt2_empty_stop_loss_raises sample_hp Loss.recording_torch empty_tt2
           sample_stop_loss sample_stop_loss empty_stop_loss empty_stop_loss
           1%float () [] empty_stop_loss); reflexivity.
Defined.

Lemma Batch_shifts_target_witness :
  exists b tg,
    Masking.Batch_init sample_labels (Some (Masking.PyDict sample_trg_set)) 0 = Ok b /\
    Masking.target b = Some tg /\
    (t3_size1 (Masking.trg tg), t3_size1 (Masking.trg_y tg)) = (3 - 1, 3 - 1) /\
    (forall k t, t < 3 - 1 ->
       Masking.frame_at (Masking.trg tg) k t = Masking.frame_at three_step_target k t) /\
    (forall k t, Masking.frame_at (Masking.trg_y tg) k t =
                 Masking.frame_at three_step_target k (S t)) /\
    (forall k t, Masking.frame_at (Masking.stop_tokens tg) k t =
                 Masking.frame_at sample_stop_loss k (S t)).
Proof.
  apply (Batch_shifts_target sample_labels sample_trg_set 0 three_step_target
           sample_stop_loss); reflexivity.
Defined.

Lemma Batch_nframes_bounds_witness :
  exists b tg,
    Masking.Batch_init sample_labels (Some (Masking.PyDict sample_trg_set)) 0 = Ok b /\
    Masking.target b = Some tg /\
    (0 <= Masking.nframes tg <= Z.of_nat (1 * (3 - 1)))%Z.
Proof.
  apply (Batch_nframes_bounds sample_labels sample_trg_set 0 three_step_target
           sample_stop_loss); [reflexivity..|].
  split; [reflexivity|]. repeat constructor.
Defined.

Lemma Batch_src_mask_witness :
  Masking.src (F := float)
    (Masking.mkBatch sample_labels (Masking.src_mask_of sample_labels 0) None) =
    sample_labels /\
  (1, 1, 3) = (1, 1, 3) /\
  forall i j v, get2 sample_labels i j = Some v ->
    get3 (Masking.src_mask_of sample_labels 0) i 0 j =
    Some (negb (bool_decide (v = 0%Z))).
Proof.
  apply (Batch_src_mask (F := float) sample_labels None 0
           (Masking.mkBatch sample_labels (Masking.src_mask_of sample_labels 0) None)).
  reflexivity.
Defined.

Lemma data_gen_draws_copy_task_data_witness :
  exists data g',
    Masking.copy_task_data 11 30 counting_rng = Ok (data, g') /\
    (t2_size0 data, t2_size1 data) = (30, 10) /\
    forall i j, i < 30 -> j < 10 ->
      exists v, get2 data i j = Some v /\
                (if bool_decide (j = 0) then v = 1%Z else (1 <= v < 11)%Z).
Proof. apply (data_gen_draws_copy_task_data 11 30 counting_rng); lia. Defined.

Lemma data_prepare_tt2_sequential_next_witness :
  Masking.data_prepare_tt2 counting_sampler 4 (2 + 1) false true 0 =
  let (d, st') := Masking.data_prepare_tt2 counting_sampler 4 2 false true 0 in
  let (batch, st'') := counting_sampler 4 (Some (2 * 4)%Z) (Masking.data_vocab d) false st' in
  (Masking.append_sample d batch, st'').
Proof.
  apply (data_prepare_tt2_sequential_next counting_sampler 4 2 false 0). lia.
Defined.
